(** * BHExpress API client: a shallow embedding of [bhexpress.api_client]

    The file follows [src/bhexpress/api_client/__init__.py]: the class
    [ApiClient] (construction, the four verbs, the private request and
    response-check methods) and the class [ApiException].

    Conventions of the embedding.
    - A Python [str] is a Rocq [string]; one [ascii] stands for one code
      point below 256.
    - JSON-like Python values ([None], [bool], [int], [str], [list], [dict]
      with [str] keys) are the type [PyValue]; floats are left out.
    - Mutable Python objects (the header dictionaries and the client
      object) live in a heap indexed by locations; methods are written in
      a state-and-exception monad over the [World].
    - The library functions the client calls ([str.strip],
      [urllib.parse.urljoin], [json.dumps], [Response.raise_for_status],
      the exception hierarchy of [requests]) are modelled after their
      CPython 3.11 and requests 2.x sources. *)

From Stdlib Require Import ZArith Ascii String DecimalString List Bool Lia.
From stdpp Require Import base option gmap strings list fin_maps.

Local Open Scope string_scope.
Local Open Scope list_scope.

(** ** Python strings *)

Module Str.

(** [all(p(c) for c in s)] *)
Fixpoint all (p : ascii -> bool) (s : string) : bool :=
  match s with
  | EmptyString => true
  | String c s' => p c && all p s'
  end.

(** [c in s] *)
Fixpoint mem (c : ascii) (s : string) : bool :=
  match s with
  | EmptyString => false
  | String d s' => Ascii.eqb d c || mem c s'
  end.

(** [s.lstrip(chars)], [chars] given as a predicate. *)
Fixpoint lstrip (p : ascii -> bool) (s : string) : string :=
  match s with
  | EmptyString => EmptyString
  | String c s' => if p c then lstrip p s' else s
  end.

(** [s.rstrip(chars)] *)
Fixpoint rstrip (p : ascii -> bool) (s : string) : string :=
  match s with
  | EmptyString => EmptyString
  | String c s' =>
      match rstrip p s' with
      | EmptyString => if p c then EmptyString else String c EmptyString
      | r => String c r
      end
  end.

Definition strip (p : ascii -> bool) (s : string) : string :=
  rstrip p (lstrip p s).

(** Keeps the characters that satisfy [p]; [s.replace(c, '')] is
    [filter (fun d => negb (d =? c)) s]. *)
Fixpoint filter (p : ascii -> bool) (s : string) : string :=
  match s with
  | EmptyString => EmptyString
  | String c s' => if p c then String c (filter p s') else filter p s'
  end.

(** The longest prefix whose characters satisfy [p], and the rest. *)
Fixpoint span (p : ascii -> bool) (s : string) : string * string :=
  match s with
  | EmptyString => (EmptyString, EmptyString)
  | String c s' =>
      if p c then let '(a, b) := span p s' in (String c a, b)
      else (EmptyString, s)
  end.

(** [s.split(c, 1)] when [c in s]: the text before the first [c] and
    the text after it; [None] when [c] does not occur. *)
Fixpoint break (c : ascii) (s : string) : option (string * string) :=
  match s with
  | EmptyString => None
  | String d s' =>
      if Ascii.eqb d c then Some (EmptyString, s')
      else match break c s' with
           | Some (a, b) => Some (String d a, b)
           | None => None
           end
  end.

(** [s.split(c)]: never empty, [''.split(c) == ['']]. *)
Fixpoint split (c : ascii) (s : string) : list string :=
  match s with
  | EmptyString => [EmptyString]
  | String d s' =>
      if Ascii.eqb d c then EmptyString :: split c s'
      else match split c s' with
           | h :: t => String d h :: t
           | [] => [String d EmptyString]
           end
  end.

(** [sep.join(l)] *)
Fixpoint join (sep : string) (l : list string) : string :=
  match l with
  | [] => EmptyString
  | [x] => x
  | x :: l' => x ++ sep ++ join sep l'
  end.

Definition is_upper (c : ascii) : bool :=
  (65 <=? nat_of_ascii c)%nat && (nat_of_ascii c <=? 90)%nat.
Definition is_lower (c : ascii) : bool :=
  (97 <=? nat_of_ascii c)%nat && (nat_of_ascii c <=? 122)%nat.
Definition is_digit (c : ascii) : bool :=
  (48 <=? nat_of_ascii c)%nat && (nat_of_ascii c <=? 57)%nat.
Definition is_ascii_alpha (c : ascii) : bool := is_upper c || is_lower c.

(** [c.lower()] on ASCII. *)
Definition lower_char (c : ascii) : ascii :=
  if is_upper c then ascii_of_nat (nat_of_ascii c + 32) else c.

Fixpoint lower (s : string) : string :=
  match s with
  | EmptyString => EmptyString
  | String c s' => String (lower_char c) (lower s')
  end.

(** [str.isspace] below code point 256: TAB..CR, FS..US, space, NEL
    and the no-break space. *)
Definition is_space (c : ascii) : bool :=
  let n := nat_of_ascii c in
  ((9 <=? n) && (n <=? 13) || (28 <=? n) && (n <=? 32)
   || (n =? 133) || (n =? 160))%nat.

(** [s.strip()] *)
Definition py_strip (s : string) : string := strip is_space s.

(** [bool(s)] *)
Definition truthy (s : string) : bool :=
  match s with EmptyString => false | _ => true end.

(** [x in l] for a list of strings. *)
Definition in_list (x : string) (l : list string) : bool :=
  existsb (String.eqb x) l.

Definition hex_digit (n : nat) : ascii :=
  if (n <? 10)%nat then ascii_of_nat (48 + n) else ascii_of_nat (87 + n).

(** Two lower-case hexadecimal digits of a code point below 256. *)
Definition hex2 (c : ascii) : string :=
  let n := nat_of_ascii c in
  String (hex_digit (n / 16)) (String (hex_digit (n mod 16)) EmptyString).

(** The double quote character. *)
Definition dquote : ascii := "034"%char.

(** [str(z)] for an [int]. *)
Definition of_Z (z : Z) : string := NilZero.string_of_int (Z.to_int z).

End Str.


(** ** Python values *)

(** The JSON-like values a request body or a decoded response body can
    hold. A [PDict] lists its items in insertion order, keys distinct. *)
#[warnings="-register-all"]
Inductive PyValue : Type :=
| PNone
| PBool (b : bool)
| PInt (z : Z)
| PStr (s : string)
| PList (l : list PyValue)
| PDict (d : list (string * PyValue)).

Module Py.

(** [bool(v)] *)
Definition truthy (v : PyValue) : bool :=
  match v with
  | PNone => false
  | PBool b => b
  | PInt z => negb (z =? 0)%Z
  | PStr s => Str.truthy s
  | PList l => match l with [] => false | _ => true end
  | PDict d => match d with [] => false | _ => true end
  end.

(** [isinstance(v, str)] *)
Definition is_str (v : PyValue) : bool :=
  match v with PStr _ => true | _ => false end.

(** [type(v).__name__] *)
Definition type_name (v : PyValue) : string :=
  match v with
  | PNone => "NoneType"
  | PBool _ => "bool"
  | PInt _ => "int"
  | PStr _ => "str"
  | PList _ => "list"
  | PDict _ => "dict"
  end.

(** [a or b] *)
Definition or (a b : PyValue) : PyValue := if truthy a then a else b.

(** [d.get(k, default)] on the items of a dict. *)
Fixpoint get (d : list (string * PyValue)) (k : string) (default : PyValue)
  : PyValue :=
  match d with
  | [] => default
  | (k', v) :: d' => if String.eqb k' k then v else get d' k default
  end.

(** Code points below 256 that [str.isprintable] rejects. *)
Definition non_printable (c : ascii) : bool :=
  let n := nat_of_ascii c in
  ((n <? 32) || (127 <=? n) && (n <=? 160) || (n =? 173))%nat.

(** [repr(s)] for a [str]: single quotes unless the text has a single
    quote and no double quote. *)
Definition repr_char (quote c : ascii) : string :=
  if Ascii.eqb c quote || Ascii.eqb c "\"
  then String "\" (String c EmptyString)
  else if Ascii.eqb c "009" then "\t"
  else if Ascii.eqb c "010" then "\n"
  else if Ascii.eqb c "013" then "\r"
  else if non_printable c then "\x" +:+ Str.hex2 c
  else String c EmptyString.

Fixpoint repr_chars (quote : ascii) (s : string) : string :=
  match s with
  | EmptyString => EmptyString
  | String c s' => repr_char quote c +:+ repr_chars quote s'
  end.

Definition repr_str (s : string) : string :=
  let quote : ascii :=
    if Str.mem "'" s && negb (Str.mem Str.dquote s) then Str.dquote
    else "'"%char in
  String quote (repr_chars quote s +:+ String quote EmptyString).

(** [repr(v)] *)
Fixpoint repr (v : PyValue) : string :=
  match v with
  | PNone => "None"
  | PBool b => if b then "True" else "False"
  | PInt z => Str.of_Z z
  | PStr s => repr_str s
  | PList l => "[" +:+ Str.join ", " (map repr l) +:+ "]"
  | PDict d =>
      "{" +:+ Str.join ", "
               (map (fun kv => let '(k, x) := kv in
                               repr_str k +:+ ": " +:+ repr x) d) +:+ "}"
  end.

(** [str(v)], which is what an f-string field [{v}] inserts. *)
Definition str (v : PyValue) : string :=
  match v with
  | PStr s => s
  | _ => repr v
  end.

(** [json.dumps]'s string encoder with [ensure_ascii=True]. *)
Definition json_escape_char (c : ascii) : string :=
  if Ascii.eqb c "\" then "\\"
  else if Ascii.eqb c Str.dquote then String "\" (String Str.dquote "")
  else if Ascii.eqb c "008" then "\b"
  else if Ascii.eqb c "012" then "\f"
  else if Ascii.eqb c "010" then "\n"
  else if Ascii.eqb c "013" then "\r"
  else if Ascii.eqb c "009" then "\t"
  else if ((nat_of_ascii c <? 32) || (126 <? nat_of_ascii c))%nat
       then "\u00" +:+ Str.hex2 c
  else String c EmptyString.

Fixpoint json_escape (s : string) : string :=
  match s with
  | EmptyString => EmptyString
  | String c s' => json_escape_char c +:+ json_escape s'
  end.

Definition json_string (s : string) : string :=
  String Str.dquote (json_escape s +:+ String Str.dquote "").

(** [json.dumps(v)] with the default separators [', '] and [': ']. *)
Fixpoint json_dumps (v : PyValue) : string :=
  match v with
  | PNone => "null"
  | PBool b => if b then "true" else "false"
  | PInt z => Str.of_Z z
  | PStr s => json_string s
  | PList l => "[" +:+ Str.join ", " (map json_dumps l) +:+ "]"
  | PDict d =>
      "{" +:+ Str.join ", "
               (map (fun kv => let '(k, x) := kv in
                               json_string k +:+ ": " +:+ json_dumps x) d)
          +:+ "}"
  end.

End Py.


(** ** Exceptions *)

(** [class ApiException(Exception)]: the three attributes set by
    [__init__(self, message, code=None, params=None)]. *)
Record ApiException : Type := mkApiException {
  message : string;
  code : PyValue;
  params : PyValue
}.

(** [ApiException.__str__] *)
Definition ApiException__str__ (self : ApiException) : string :=
  match code self with
  | PNone => "[BHExpress] " +:+ message self
  | c => "[BHExpress] Error " +:+ Py.str c +:+ ": " +:+ message self
  end.

(** The classes of [requests.exceptions]. *)
Inductive RequestsExc : Type :=
| RequestException | InvalidJSONError | JSONDecodeError | HTTPError
| ConnectionError | ProxyError | SSLError | Timeout | ConnectTimeout
| ReadTimeout | URLRequired | TooManyRedirects | MissingSchema
| InvalidSchema | InvalidURL | InvalidProxyURL | InvalidHeader
| ChunkedEncodingError | ContentDecodingError | StreamConsumedError
| RetryError | UnrewindableBodyError.

Module Requests.

Definition eqb (a b : RequestsExc) : bool :=
  match a, b with
  | RequestException, RequestException | InvalidJSONError, InvalidJSONError
  | JSONDecodeError, JSONDecodeError | HTTPError, HTTPError
  | ConnectionError, ConnectionError | ProxyError, ProxyError
  | SSLError, SSLError | Timeout, Timeout | ConnectTimeout, ConnectTimeout
  | ReadTimeout, ReadTimeout | URLRequired, URLRequired
  | TooManyRedirects, TooManyRedirects | MissingSchema, MissingSchema
  | InvalidSchema, InvalidSchema | InvalidURL, InvalidURL
  | InvalidProxyURL, InvalidProxyURL | InvalidHeader, InvalidHeader
  | ChunkedEncodingError, ChunkedEncodingError
  | ContentDecodingError, ContentDecodingError
  | StreamConsumedError, StreamConsumedError | RetryError, RetryError
  | UnrewindableBodyError, UnrewindableBodyError => true
  | _, _ => false
  end.

(** The classes of [requests.exceptions] a class derives from, itself
    included: [class ConnectTimeout(ConnectionError, Timeout)],
    [class ProxyError(ConnectionError)], and so on. *)
Definition ancestors (c : RequestsExc) : list RequestsExc :=
  match c with
  | RequestException => [RequestException]
  | JSONDecodeError => [JSONDecodeError; InvalidJSONError; RequestException]
  | ProxyError => [ProxyError; ConnectionError; RequestException]
  | SSLError => [SSLError; ConnectionError; RequestException]
  | ConnectTimeout =>
      [ConnectTimeout; ConnectionError; Timeout; RequestException]
  | ReadTimeout => [ReadTimeout; Timeout; RequestException]
  | InvalidProxyURL => [InvalidProxyURL; InvalidURL; RequestException]
  | c => [c; RequestException]
  end.

(** [isinstance(error, cls)] for an [error] of class [c]. *)
Definition isinstance (c cls : RequestsExc) : bool :=
  existsb (eqb cls) (ancestors c).

End Requests.

(** What a Python call can raise here. [ExcRequests cls detail] is an
    exception of [requests.exceptions] whose [str()] is [detail]. *)
Inductive PyExc : Type :=
| ExcApiException (e : ApiException)
| ExcRequests (cls : RequestsExc) (detail : string)
| ExcAttributeError (msg : string)
| ExcTypeError (msg : string)
| ExcValueError (msg : string).

(** The outcome of a Python call: a value or a raised exception. *)
Inductive Outcome (A : Type) : Type :=
| Return (a : A)
| Raise (e : PyExc).
Arguments Return {A} a.
Arguments Raise {A} e.

#[global] Instance Outcome_ret : MRet Outcome := fun A a => Return a.
#[global] Instance Outcome_bind : MBind Outcome := fun A B f m =>
  match m with
  | Return a => f a
  | Raise e => Raise e
  end.

(** ** [urllib.parse.urljoin] *)

Module Url.

Definition uses_relative : list string :=
  [""; "ftp"; "http"; "gopher"; "nntp"; "imap"; "wais"; "file"; "https";
   "shttp"; "mms"; "prospero"; "rtsp"; "rtspu"; "sftp"; "svn"; "svn+ssh";
   "ws"; "wss"].

Definition uses_netloc : list string :=
  [""; "ftp"; "http"; "gopher"; "nntp"; "telnet"; "imap"; "wais"; "file";
   "mms"; "https"; "shttp"; "snews"; "prospero"; "rtsp"; "rtspu"; "rsync";
   "svn"; "svn+ssh"; "sftp"; "nfs"; "git"; "git+ssh"; "ws"; "wss"].

Definition uses_params : list string :=
  [""; "ftp"; "hdl"; "prospero"; "http"; "imap"; "https"; "shttp"; "rtsp";
   "rtspu"; "sip"; "sips"; "mms"; "sftp"; "tel"].

(** [c in scheme_chars] *)
Definition is_scheme_char (c : ascii) : bool :=
  Str.is_lower c || Str.is_upper c || Str.is_digit c
  || Ascii.eqb c "+" || Ascii.eqb c "-" || Ascii.eqb c ".".

(** [c in _WHATWG_C0_CONTROL_OR_SPACE] *)
Definition is_c0_control_or_space (c : ascii) : bool :=
  (nat_of_ascii c <=? 32)%nat.

(** [c not in _UNSAFE_URL_BYTES_TO_REMOVE], that is TAB, CR and LF. *)
Definition is_safe_url_byte (c : ascii) : bool :=
  negb (Ascii.eqb c "009" || Ascii.eqb c "013" || Ascii.eqb c "010").

(** [c not in '/?#'], the characters that end the netloc. *)
Definition is_netloc_char (c : ascii) : bool :=
  negb (Ascii.eqb c "/" || Ascii.eqb c "?" || Ascii.eqb c "#").

Record SplitResult : Type := mkSplit {
  s_scheme : string; s_netloc : string; s_path : string;
  s_query : string; s_fragment : string
}.

Record ParseResult : Type := mkParse {
  scheme : string; netloc : string; path : string;
  params : string; query : string; fragment : string
}.

(** Splits at the last [c]: the text before it and the text after it. *)
Fixpoint rbreak (c : ascii) (s : string) : option (string * string) :=
  match s with
  | EmptyString => None
  | String d s' =>
      match rbreak c s' with
      | Some (a, b) => Some (String d a, b)
      | None => if Ascii.eqb d c then Some (EmptyString, s') else None
      end
  end.

(** [_splitparams(url)], called only when [';' in url]: the first [;]
    after the last [/] separates the parameters. *)
Definition splitparams (url : string) : string * string :=
  match rbreak "/" url with
  | Some (head, tail) =>
      match Str.break ";" tail with
      | Some (a, b) => (head +:+ "/" +:+ a, b)
      | None => (url, "")
      end
  | None =>
      match Str.break ";" url with
      | Some (a, b) => (a, b)
      | None => (url, "")
      end
  end.

(** [urlunsplit((scheme, netloc, url, query, fragment))] *)
Definition urlunsplit (r : SplitResult) : string :=
  let url := s_path r in
  let url :=
    if Str.truthy (s_netloc r)
       || (Str.truthy (s_scheme r) && Str.in_list (s_scheme r) uses_netloc
           && negb (String.prefix "//" url))
    then
      let url :=
        if Str.truthy url && negb (String.prefix "/" url)
        then "/" +:+ url else url in
      "//" +:+ s_netloc r +:+ url
    else url in
  let url :=
    if Str.truthy (s_scheme r) then s_scheme r +:+ ":" +:+ url else url in
  let url :=
    if Str.truthy (s_query r) then url +:+ "?" +:+ s_query r else url in
  if Str.truthy (s_fragment r) then url +:+ "#" +:+ s_fragment r else url.

(** [urlunparse((scheme, netloc, url, params, query, fragment))] *)
Definition urlunparse (r : ParseResult) : string :=
  let url :=
    if Str.truthy (params r) then path r +:+ ";" +:+ params r
    else path r in
  urlunsplit (mkSplit (scheme r) (netloc r) url (query r) (fragment r)).

(** [segments[1:-1] = filter(None, segments[1:-1])] *)
Definition filter_middle (segments : list string) : list string :=
  match segments with
  | [] => []
  | [x] => [x]
  | x :: t => x :: List.filter Str.truthy (List.removelast t)
                ++ [List.last t ""]
  end.

(** One turn of the loop [for seg in segments] over [resolved_path]. *)
Definition resolve_step (resolved_path : list string) (seg : string)
  : list string :=
  if String.eqb seg ".." then List.removelast resolved_path
  else if String.eqb seg "." then resolved_path
  else resolved_path ++ [seg].

Section Parse.

(** [_check_bracketed_netloc(netloc)], which validates a bracketed
    host with the [ipaddress] module: [None] when it passes, the
    message of the [ValueError] otherwise. *)
Variable check_bracketed_netloc : string -> option string.

(** [urlsplit(url, scheme)] with [allow_fragments=True]. The check
    [_checknetloc] never raises on code points below 256 and is left
    out. *)
Definition urlsplit (url scheme : string) : Outcome SplitResult :=
  let url := Str.lstrip is_c0_control_or_space url in
  let scheme := Str.strip is_c0_control_or_space scheme in
  let url := Str.filter is_safe_url_byte url in
  let scheme := Str.filter is_safe_url_byte scheme in
  let '(scheme, url) :=
    match Str.break ":" url with
    | Some (String c0 _ as pre, rest) =>
        if Str.is_ascii_alpha c0 && Str.all is_scheme_char pre
        then (Str.lower pre, rest) else (scheme, url)
    | _ => (scheme, url)
    end in
  '(netloc, url) ←
    match url with
    | String "/" (String "/" rest) =>
        let '(netloc, url) := Str.span is_netloc_char rest in
        if xorb (Str.mem "[" netloc) (Str.mem "]" netloc)
        then Raise (ExcValueError "Invalid IPv6 URL")
        else if Str.mem "[" netloc && Str.mem "]" netloc
        then match check_bracketed_netloc netloc with
             | Some msg => Raise (ExcValueError msg)
             | None => Return (netloc, url)
             end
        else Return (netloc, url)
    | _ => Return ("", url)
    end;
  let '(url, fragment) :=
    match Str.break "#" url with
    | Some (u, f) => (u, f)
    | None => (url, "")
    end in
  let '(url, query) :=
    match Str.break "?" url with
    | Some (u, q) => (u, q)
    | None => (url, "")
    end in
  Return (mkSplit scheme netloc url query fragment).

(** [urlparse(url, scheme)] *)
Definition urlparse (url scheme : string) : Outcome ParseResult :=
  r ← urlsplit url scheme;
  let '(url, params) :=
    if Str.in_list (s_scheme r) uses_params && Str.mem ";" (s_path r)
    then splitparams (s_path r) else (s_path r, "") in
  Return (mkParse (s_scheme r) (s_netloc r) url params
                  (s_query r) (s_fragment r)).

(** [urljoin(base, url)] *)
Definition urljoin (base url : string) : Outcome string :=
  if negb (Str.truthy base) then Return url
  else if negb (Str.truthy url) then Return base
  else
    b ← urlparse base "";
    u ← urlparse url (scheme b);
    if negb (String.eqb (scheme u) (scheme b))
       || negb (Str.in_list (scheme u) uses_relative)
    then Return url
    else if Str.in_list (scheme u) uses_netloc && Str.truthy (netloc u)
    then Return (urlunparse u)
    else
      let netloc :=
        if Str.in_list (scheme u) uses_netloc then netloc b
        else netloc u in
      if negb (Str.truthy (path u)) && negb (Str.truthy (params u))
      then
        let query := if Str.truthy (query u) then query u else query b in
        Return (urlunparse (mkParse (scheme u) netloc (path b) (params b)
                                    query (fragment u)))
      else
        let base_parts := Str.split "/" (path b) in
        let base_parts :=
          if Str.truthy (List.last base_parts "")
          then List.removelast base_parts else base_parts in
        let segments :=
          if String.prefix "/" (path u) then Str.split "/" (path u)
          else filter_middle (base_parts ++ Str.split "/" (path u)) in
        let resolved_path := fold_left resolve_step segments [] in
        let resolved_path :=
          if Str.in_list (List.last segments "") ["."; ".."]
          then resolved_path ++ [""] else resolved_path in
        let joined := Str.join "/" resolved_path in
        Return (urlunparse
                  (mkParse (scheme u) netloc
                           (if Str.truthy joined then joined else "/")
                           (params u) (query u) (fragment u))).

End Parse.

End Url.

(** ** The Transport: [requests.request] and its [Response] *)

Module Response.

(** What [response.json()] does: it returns the decoded body, or
    raises [requests.exceptions.JSONDecodeError]. *)
Inductive JsonBody : Type :=
| Decoded (v : PyValue)
| NotJson (detail : string).

(** The attributes of a [requests.Response] the client can reach. *)
Record t : Type := mk {
  status_code : Z;
  reason : string;
  url : string;
  text : string;
  json : JsonBody
}.

(** [Response.raise_for_status()] of requests: [None] when nothing is
    raised, or the message of the [HTTPError] it raises, for a client
    error (400 to 499) and for a server error (500 to 599). *)
Definition raise_for_status (self : t) : option string :=
  let tail := ": " +:+ reason self +:+ " for url: " +:+ url self in
  if ((400 <=? status_code self) && (status_code self <? 500))%Z
  then Some (Str.of_Z (status_code self) +:+ " Client Error" +:+ tail)
  else if ((500 <=? status_code self) && (status_code self <? 600))%Z
  then Some (Str.of_Z (status_code self) +:+ " Server Error" +:+ tail)
  else None.

End Response.

(** A location of the heap: the identity of a mutable Python object. *)
Abbreviation loc := positive.

Module Request.

(** The arguments of [requests.request(method, url, data=..., headers=...)];
    [headers] is the dict object handed over. *)
Record t : Type := mk {
  method : string;
  url : string;
  data : PyValue;
  headers : loc
}.

End Request.

(** What the Transport answers: a response, or an exception of
    [requests.exceptions] with the text of its [str()]. *)
Inductive TransportResult : Type :=
| Responds (r : Response.t)
| Fails (cls : RequestsExc) (detail : string).

(** ** The client object and the world *)

(** The attributes [__init__] sets on an [ApiClient]; [headers] is a
    reference to the dict built by [__generate_headers]. *)
Module ApiClient.

Record t : Type := mk {
  token : string;
  url : string;
  headers : loc;
  version : string;
  raise_for_status : bool
}.

End ApiClient.

Inductive PyObj : Type :=
| ObjDict (d : gmap string string)
| ObjApiClient (c : ApiClient.t).

(** One call the Transport received, with the content the headers dict
    had at that moment. *)
Record Sent : Type := mkSent {
  sent_method : string;
  sent_url : string;
  sent_data : PyValue;
  sent_headers : gmap string string
}.

Record World : Type := mkWorld {
  heap : gmap loc PyObj;
  environ : gmap string string;
  sent : list Sent
}.

(** Computations that read and update the world and may raise. *)
Definition M (A : Type) : Type := World -> Outcome A * World.

#[global] Instance M_ret : MRet M := fun A a w => (Return a, w).
#[global] Instance M_bind : MBind M := fun A B f m w =>
  match m w with
  | (Return a, w') => f a w'
  | (Raise e, w') => (Raise e, w')
  end.

(** [raise e] *)
Definition raise {A : Type} (e : PyExc) : M A := fun w => (Raise e, w).

(** [try: body / except ...: handler]; a handler re-raises what no
    [except] clause matches. *)
Definition try_except {A : Type} (body : M A) (handler : PyExc -> M A) : M A :=
  fun w =>
    match body w with
    | (Return a, w') => (Return a, w')
    | (Raise e, w') => handler e w'
    end.

(** A pure call that may raise. *)
Definition lift {A : Type} (o : Outcome A) : M A := fun w => (o, w).

(** A new object at a location the heap does not use yet. *)
Definition alloc (o : PyObj) : M loc := fun w =>
  let l := fresh (dom (heap w)) in
  (Return l, mkWorld (<[l := o]> (heap w)) (environ w) (sent w)).

(** [os.getenv(name)] *)
Definition getenv (name : string) : M (option string) := fun w =>
  (Return (environ w !! name), w).

(** The attributes of [self]; on anything but an [ApiClient] the private
    methods are missing. *)
Definition get_self (self : loc) : M ApiClient.t := fun w =>
  match heap w !! self with
  | Some (ObjApiClient c) => (Return c, w)
  | _ => (Raise (ExcAttributeError
                   "'dict' object has no attribute '_ApiClient__request'"), w)
  end.

(** The items of the dict at [l], as unpacked by [**]. *)
Definition read_dict (l : loc) : M (gmap string string) := fun w =>
  match heap w !! l with
  | Some (ObjDict d) => (Return d, w)
  | _ => (Raise (ExcTypeError "'ApiClient' object is not a mapping"), w)
  end.

(** ** [class ApiClient] *)

Definition DEFAULT_URL : string := "https://bhexpress.cl".
Definition DEFAULT_VERSION : string := "v1".

(** The text [conexion] with its accented o (code point 243). *)
Definition conexion : string := "conexi" +:+ String "243" "n".

(** [bool(x)] for an optional [str] argument: [None] and [''] are false. *)
Definition opt_truthy (x : option string) : bool :=
  match x with
  | Some s => Str.truthy s
  | None => false
  end.

(** [raise ApiException(message)]: [code] and [params] keep their
    defaults. *)
Definition raise_ApiException {A : Type} (message : string) : M A :=
  raise (ExcApiException (mkApiException message PNone PNone)).

(** [ApiClient.__validate_token] *)
Definition ApiClient__validate_token (token : option string) : M string :=
  from_env ← getenv "BHEXPRESS_API_TOKEN";
  let token := if opt_truthy token then token else from_env in
  match token with
  | Some t =>
      if Str.truthy t then mret (Str.py_strip t)
      else raise_ApiException
             "Se debe configurar la variable de entorno: BHEXPRESS_API_TOKEN."
  | None =>
      raise_ApiException
        "Se debe configurar la variable de entorno: BHEXPRESS_API_TOKEN."
  end.

(** [ApiClient.__validate_url] *)
Definition ApiClient__validate_url (url : option string) : M string :=
  match url with
  | Some u =>
      if Str.truthy u then mret (Str.py_strip u)
      else from_env ← getenv "BHEXPRESS_API_URL";
           mret (Str.py_strip (default DEFAULT_URL from_env))
  | None =>
      from_env ← getenv "BHEXPRESS_API_URL";
      mret (Str.py_strip (default DEFAULT_URL from_env))
  end.

(** The dict literal of [ApiClient.__generate_headers]. *)
Definition default_headers (token : string) : gmap string string :=
  <["Authorization" := "Token " +:+ token]>
    (<["Content-Type" := "application/json"]>
       (<["Accept" := "application/json"]>
          (<["User-Agent" := "BHExpress: Cliente de API en Python."]> ∅))).

(** [ApiClient.__generate_headers], on the token already stored. *)
Definition ApiClient__generate_headers (token : string) : M loc :=
  alloc (ObjDict (default_headers token)).

(** [ApiClient(token, url, version, raise_for_status)]: the attributes
    are computed in the order of [__init__]; the result is the new
    object. *)
Definition ApiClient__init__ (token url version : option string)
    (raise_for_status : bool) : M loc :=
  token ← ApiClient__validate_token token;
  url ← ApiClient__validate_url url;
  headers ← ApiClient__generate_headers token;
  let version :=
    if opt_truthy version then default DEFAULT_VERSION version
    else DEFAULT_VERSION in
  alloc (ObjApiClient (ApiClient.mk token url headers version
                                     raise_for_status)).

(** [error.get(key, default)] on a decoded body: only a dict has
    [get]. *)
Definition value_get (error : PyValue) (key : string) (default : PyValue)
  : M PyValue :=
  match error with
  | PDict d => mret (Py.get d key default)
  | _ => raise (ExcAttributeError
                  ("'" +:+ Py.type_name error
                   +:+ "' object has no attribute 'get'"))
  end.

(** [response.json()] *)
Definition Response_json (response : Response.t) : M PyValue :=
  match Response.json response with
  | Response.Decoded v => mret v
  | Response.NotJson detail => raise (ExcRequests JSONDecodeError detail)
  end.

(** [response.raise_for_status()] *)
Definition Response_raise_for_status (response : Response.t) : M unit :=
  match Response.raise_for_status response with
  | Some msg => raise (ExcRequests HTTPError msg)
  | None => mret tt
  end.

(** [isinstance(e, json.decoder.JSONDecodeError)]: of the exceptions
    here, the one [response.json()] raises derives from it. *)
Definition is_json_JSONDecodeError (e : PyExc) : bool :=
  match e with
  | ExcRequests cls _ => Requests.isinstance cls JSONDecodeError
  | _ => false
  end.

(** The body of the clause [except requests.exceptions.HTTPError] in
    [__check_and_return_response]. *)
Definition http_error_handler {A : Type} (response : Response.t) : M A :=
  message ←
    try_except
      (error ← Response_json response;
       by_message ← value_get error "message" (PStr "");
       if Py.truthy by_message then mret by_message
       else
         by_exception ← value_get error "exception" (PStr "");
         mret (Py.or by_exception (PStr "Error desconocido.")))
      (fun e =>
         if is_json_JSONDecodeError e
         then mret (PStr ("Error al decodificar los datos en JSON: "
                          +:+ Response.text response))
         else raise e);
  raise_ApiException ("Error HTTP: " +:+ Py.str message).

(** [ApiClient.__check_and_return_response] *)
Definition ApiClient__check_and_return_response (self : loc)
    (response : Response.t) : M Response.t :=
  c ← get_self self;
  _ ← (if negb (Response.status_code response =? 200)%Z
        && ApiClient.raise_for_status c
       then
         try_except (Response_raise_for_status response)
           (fun e =>
              match e with
              | ExcRequests cls _ =>
                  if Requests.isinstance cls HTTPError
                  then http_error_handler response
                  else raise e
              | _ => raise e
              end)
       else mret tt);
  mret response.

(** Lines 147 and 148 of [__request]:
    [if data and not isinstance(data, str): data = json.dumps(data)]. *)
Definition encode_data (data : PyValue) : PyValue :=
  if Py.truthy data && negb (Py.is_str data)
  then PStr (Py.json_dumps data) else data.

(** Line 146 of [__request], [{**self.headers, **headers}], on the
    contents of the two dicts: the items of [headers] come last and
    win. *)
Definition merge_headers (self_headers headers : gmap string string)
  : gmap string string :=
  headers ∪ self_headers.

Section Client.

(** The bracketed-host check of [urllib.parse] (see [Url.urlsplit]). *)
Variable check_bracketed_netloc : string -> option string.

(** The Transport, [requests.request]: from the calls it received so
    far and the present call, its answer and the content it leaves in
    the headers dict it was handed. *)
Variable transport :
  list Sent -> Sent -> TransportResult * gmap string string.

(** [requests.request(method, url, data=data, headers=headers)] *)
Definition requests_request (rq : Request.t) : M Response.t := fun w =>
  let before :=
    match heap w !! Request.headers rq with
    | Some (ObjDict d) => d
    | _ => ∅
    end in
  let call :=
    mkSent (Request.method rq) (Request.url rq) (Request.data rq) before in
  let '(answer, after) := transport (sent w) call in
  let w' :=
    mkWorld (<[Request.headers rq := ObjDict after]> (heap w)) (environ w)
            (sent w ++ [call]) in
  match answer with
  | Responds r => (Return r, w')
  | Fails cls detail => (Raise (ExcRequests cls detail), w')
  end.

(** Lines 143 and 144 of [__request]: the API path and its join onto
    the base URL. *)
Definition full_url (c : ApiClient.t) (resource : string) : Outcome string :=
  let api_path := "/api/" +:+ ApiClient.version c +:+ resource in
  Url.urljoin check_bracketed_netloc (ApiClient.url c +:+ "/")
              (Str.lstrip (Ascii.eqb "/") api_path).

(** The [except] clauses of [__request], in their order. *)
Definition request_handler {A : Type} (e : PyExc) : M A :=
  match e with
  | ExcRequests cls error =>
      if Requests.isinstance cls ConnectionError
      then raise_ApiException ("Error de " +:+ conexion +:+ ": " +:+ error)
      else if Requests.isinstance cls Timeout
      then raise_ApiException ("Error de timeout: " +:+ error)
      else if Requests.isinstance cls RequestException
      then raise_ApiException ("Error en la solicitud: " +:+ error)
      else raise e
  | _ => raise e
  end.

(** [ApiClient.__request]; [headers or {}] reads the caller's dict,
    or an empty one. *)
Definition ApiClient__request (self : loc) (method resource : string)
    (data : PyValue) (headers : option loc) : M Response.t :=
  c ← get_self self;
  full_url ← lift (full_url c resource);
  headers ← match headers with
            | Some h => read_dict h
            | None => mret ∅
            end;
  self_headers ← read_dict (ApiClient.headers c);
  headers ← alloc (ObjDict (merge_headers self_headers headers));
  let data := encode_data data in
  try_except
    (response ← requests_request (Request.mk method full_url data headers);
     ApiClient__check_and_return_response self response)
    request_handler.

(** [ApiClient.get] *)
Definition get (self : loc) (resource : string) (headers : option loc)
  : M Response.t :=
  ApiClient__request self "GET" resource PNone headers.

(** [ApiClient.delete] *)
Definition delete (self : loc) (resource : string) (headers : option loc)
  : M Response.t :=
  ApiClient__request self "DELETE" resource PNone headers.

(** [ApiClient.post] *)
Definition post (self : loc) (resource : string) (data : PyValue)
    (headers : option loc) : M Response.t :=
  ApiClient__request self "POST" resource data headers.

(** [ApiClient.put] *)
Definition put (self : loc) (resource : string) (data : PyValue)
    (headers : option loc) : M Response.t :=
  ApiClient__request self "PUT" resource data headers.

(** The four public verbs. *)
Inductive Verb : Type := GET | DELETE | POST | PUT.

(** A verb call; [get] and [delete] take no [data]. *)
Definition call (verb : Verb) (self : loc) (resource : string)
    (data : PyValue) (headers : option loc) : M Response.t :=
  match verb with
  | GET => get self resource headers
  | DELETE => delete self resource headers
  | POST => post self resource data headers
  | PUT => put self resource data headers
  end.

(** The method name and the [data] a verb passes to [__request]. *)
Definition verb_method (verb : Verb) : string :=
  match verb with
  | GET => "GET" | DELETE => "DELETE" | POST => "POST" | PUT => "PUT"
  end.

Definition verb_data (verb : Verb) (data : PyValue) : PyValue :=
  match verb with
  | GET | DELETE => PNone
  | POST | PUT => data
  end.

(** A sequence of verb calls on one client, one after the other,
    whatever each returns or raises. *)
Fixpoint run (self : loc)
    (calls : list (Verb * string * PyValue * option loc)) (w : World)
  : World :=
  match calls with
  | [] => w
  | (verb, resource, data, headers) :: rest =>
      run self rest (snd (call verb self resource data headers w))
  end.

End Client.

(** ** The URL the specification describes *)

(** [base] without one trailing slash, if it has one. *)
Fixpoint drop_trailing_slash (base : string) : string :=
  match base with
  | EmptyString => EmptyString
  | String c EmptyString => if Ascii.eqb c "/" then EmptyString else base
  | String c rest => String c (drop_trailing_slash rest)
  end.

(** The base URL, exactly one slash, then [api/] + version + resource. *)
Definition spec_full_url (base version resource : string) : string :=
  drop_trailing_slash base +:+ "/" +:+ "api/" +:+ version +:+ resource.

(** ** Calls on a client that exists *)

(** The heap holds the client [c] at [self] and the items [self_headers]
    of its default headers; [given] are the items of the dict the caller
    passes as [headers], none when the caller passes no dict. *)
Definition ready (w : World) (self : loc) (c : ApiClient.t)
    (self_headers : gmap string string) (headers : option loc)
    (given : gmap string string) : Prop :=
  heap w !! self = Some (ObjApiClient c)
  /\ heap w !! ApiClient.headers c = Some (ObjDict self_headers)
  /\ match headers with
     | Some h => heap w !! h = Some (ObjDict given)
     | None => given = ∅
     end.

(** ** Plain URLs *)

(** A character that plays no part in the splitting of a URL: none of
    [/ ? # ;], and not TAB, CR or LF. *)
Definition is_plain_char (c : ascii) : bool :=
  negb (Ascii.eqb c "/" || Ascii.eqb c "?" || Ascii.eqb c "#"
        || Ascii.eqb c ";")
  && Url.is_safe_url_byte c.

(** A path segment that is kept as it stands: not empty, not a dot
    segment, plain characters only. *)
Definition is_plain_segment (s : string) : bool :=
  Str.truthy s && Str.all is_plain_char s
  && negb (String.eqb s ".") && negb (String.eqb s "..").

(** A host (with port or user, if any): not empty, plain characters, no
    square bracket. *)
Definition is_plain_netloc (s : string) : bool :=
  Str.truthy s
  && Str.all (fun c => is_plain_char c
                       && negb (Ascii.eqb c "[" || Ascii.eqb c "]")) s.

(** A relative path made of plain segments; the last one may be empty
    (a trailing slash). *)
Definition is_plain_path (p : string) : bool :=
  match rev (Str.split "/" p) with
  | [] => false
  | last :: init =>
      (negb (Str.truthy last) || is_plain_segment last)
      && forallb is_plain_segment init
  end.

(** [/s1/s2/...] *)
Fixpoint slashed (segments : list string) : string :=
  match segments with
  | [] => EmptyString
  | s :: rest => "/" +:+ s +:+ slashed rest
  end.

(** A base URL written out: scheme, host, plain path segments and, when
    [trailing] holds, one trailing slash. *)
Definition base_url (scheme netloc : string) (segments : list string)
    (trailing : bool) : string :=
  scheme +:+ "://" +:+ netloc +:+ slashed segments
  +:+ (if trailing then "/" else "").

(** A character of a path: plain, or a slash. *)
Definition is_path_char (c : ascii) : bool :=
  is_plain_char c || Ascii.eqb c "/".

(** A segment the loop of [urljoin] appends: not a dot segment. *)
Definition kept (s : string) : bool :=
  negb (String.eqb s "..") && negb (String.eqb s ".").

(** The empty segments that close the path of the base URL once
    [__request] has appended its slash: one, or two after a trailing
    slash. *)
Definition closing (trailing : bool) : list string :=
  if trailing then [""; ""] else [""].

(** ** Fixtures for the worked examples *)

(** A bracketed-host check that accepts every host. *)
Definition accept_brackets : string -> option string := fun _ => None.

(** A Transport that answers every call with [r] and leaves the headers
    dict as it found it. *)
Definition answering (r : Response.t)
  : list Sent -> Sent -> TransportResult * gmap string string :=
  fun _ wire => (Responds r, sent_headers wire).

(** A Transport that fails every call with an exception of class [cls],
    after it has emptied the headers dict it was handed. *)
Definition failing (cls : RequestsExc) (detail : string)
  : list Sent -> Sent -> TransportResult * gmap string string :=
  fun _ _ => (Fails cls detail, ∅).

(** A world with an empty heap and the token in the environment. *)
Definition world0 : World :=
  mkWorld ∅ (<["BHEXPRESS_API_TOKEN" := "secret"]> ∅) [].

(** [world0] after [ApiClient()]: the default headers at location 1, the
    client at location 2. *)
Definition world1 : World := snd (ApiClient__init__ None None None true world0).

Definition client1 : ApiClient.t :=
  ApiClient.mk "secret" "https://bhexpress.cl" 1 "v1" true.

(** [world1] with a caller's dict at location 3. *)
Definition caller_headers : gmap string string :=
  <["Accept" := "text/plain"]> (<["X-Trace" := "1"]> ∅).

Definition world2 : World :=
  mkWorld (<[3%positive := ObjDict caller_headers]> (heap world1))
          (environ world1) (sent world1).

(** A response with the given status and decoded body. *)
Definition response (status : Z) (text : string) (json : Response.JsonBody)
  : Response.t :=
  Response.mk status "" "https://bhexpress.cl/api/v1/dte" text json.

(** ** Exceptions without a code *)

(** An exception that, if it is an [ApiException], has neither code
    nor params. *)
Definition codeless_exc (e : PyExc) : Prop :=
  match e with
  | ExcApiException a => code a = PNone /\ params a = PNone
  | _ => True
  end.

Definition codeless_outcome {A : Type} (o : Outcome A) : Prop :=
  match o with
  | Raise e => codeless_exc e
  | Return _ => True
  end.

(** A computation that raises codeless exceptions only. *)
Definition codeless {A : Type} (m : M A) : Prop :=
  forall w, codeless_outcome (fst (m w)).

(** ** [class ApiBase] *)

Module ApiBase.

(** The one attribute [__init__] sets on a wrapper: a reference to its
    client. *)
Record t : Type := mk {
  client : loc
}.

End ApiBase.

(** [ApiBase(api_token, api_url, api_version, api_raise_for_status)]:
    [self.client = ApiClient(...)] with the arguments in the same
    order. *)
Definition ApiBase__init__ (api_token api_url api_version : option string)
    (api_raise_for_status : bool) : M ApiBase.t :=
  client ← ApiClient__init__ api_token api_url api_version
             api_raise_for_status;
  mret (ApiBase.mk client).

(** ** Resources with a query *)

(** A character of a query: anything but [#], TAB, CR and LF. *)
Definition is_query_char (c : ascii) : bool :=
  Url.is_safe_url_byte c && negb (Ascii.eqb c "#").

(** The message of the configuration error of [__validate_token]. *)
Definition token_error : string :=
  "Se debe configurar la variable de entorno: BHEXPRESS_API_TOKEN.".

(** ** What a call can raise *)



(** A segment that is empty or plain. *)
Definition is_empty_or_plain (s : string) : bool :=
  negb (Str.truthy s) || is_plain_segment s.

(** A world whose environment names a base URL, and the client built in
    it from an explicit token, URL and version: the default headers at
    location 1, the client at location 2. *)
Definition world3 : World :=
  mkWorld ∅ (<["BHEXPRESS_API_URL" := "https://env.example/"]>
               (<["BHEXPRESS_API_TOKEN" := " from-env "]> ∅)) [].

Definition world4 : World :=
  snd (ApiClient__init__ (Some " key ") (Some " https://api.example/bhe/ ")
         (Some "v2") false world3).

Definition client4 : ApiClient.t :=
  ApiClient.mk "key" "https://api.example/bhe/" 1 "v2" false.

(** * Proofs *)

#[local] Arguments String.append : simpl nomatch.

(** ** Strings *)



Module StrFacts.

Lemma app_nil_r s : s +:+ "" = s.
Proof. induction s as [|c s IH]; simpl; [reflexivity | now rewrite IH]. Qed.

Lemma prefix_empty s : String.prefix "" s = true.
Proof. destruct s; reflexivity. Qed.

Lemma app_assoc a b c : (a +:+ b) +:+ c = a +:+ b +:+ c.
Proof. induction a as [|x a IH]; simpl; [reflexivity | now rewrite IH]. Qed.

Lemma all_app p a b : Str.all p (a +:+ b) = Str.all p a && Str.all p b.
Proof.
  induction a as [|x a IH]; simpl; [reflexivity|].
  rewrite IH. now rewrite andb_assoc.
Qed.

Lemma all_impl (p q : ascii -> bool) s :
  (forall c, p c = true -> q c = true) ->
  Str.all p s = true -> Str.all q s = true.
Proof.
  intros Hpq. induction s as [|x s IH]; simpl; [reflexivity|].
  intros [Hx Hs]%andb_true_iff. rewrite (Hpq _ Hx). now apply IH.
Qed.

Lemma filter_all p s : Str.all p s = true -> Str.filter p s = s.
Proof.
  induction s as [|x s IH]; simpl; [reflexivity|].
  intros [Hx Hs]%andb_true_iff. rewrite Hx. now rewrite IH.
Qed.

Lemma break_none c s :
  Str.all (fun d => negb (Ascii.eqb d c)) s = true -> Str.break c s = None.
Proof.
  induction s as [|x s IH]; simpl; [reflexivity|].
  intros [Hx Hs]%andb_true_iff. apply negb_true_iff in Hx. rewrite Hx.
  now rewrite IH.
Qed.

Lemma mem_none c s :
  Str.all (fun d => negb (Ascii.eqb d c)) s = true -> Str.mem c s = false.
Proof.
  induction s as [|x s IH]; simpl; [reflexivity|].
  intros [Hx Hs]%andb_true_iff. apply negb_true_iff in Hx. rewrite Hx.
  now rewrite IH.
Qed.

Lemma span_all p a b :
  Str.all p a = true ->
  match b with EmptyString => True | String c _ => p c = false end ->
  Str.span p (a +:+ b) = (a, b).
Proof.
  intros Ha Hb. induction a as [|x a IH]; simpl.
  - destruct b as [|c b]; simpl; [reflexivity | now rewrite Hb].
  - simpl in Ha. apply andb_true_iff in Ha as [Hx Ha]. rewrite Hx.
    now rewrite IH.
Qed.

Lemma split_one c s :
  Str.all (fun d => negb (Ascii.eqb d c)) s = true -> Str.split c s = [s].
Proof.
  induction s as [|x s IH]; simpl; [reflexivity|].
  intros [Hx Hs]%andb_true_iff. apply negb_true_iff in Hx. rewrite Hx.
  now rewrite IH.
Qed.

Lemma split_app c s t :
  Str.all (fun d => negb (Ascii.eqb d c)) s = true ->
  Str.split c (s +:+ String c t) = s :: Str.split c t.
Proof.
  induction s as [|x s IH]; simpl.
  - intros _. now rewrite Ascii.eqb_refl.
  - intros [Hx Hs]%andb_true_iff. apply negb_true_iff in Hx. rewrite Hx.
    now rewrite IH.
Qed.

Lemma split_not_nil c s : Str.split c s <> [].
Proof.
  induction s as [|x s IH]; simpl; [discriminate|].
  destruct (Ascii.eqb x c); [discriminate|].
  destruct (Str.split c s); [contradiction | discriminate].
Qed.

Lemma join_cons sep x l :
  l <> [] -> Str.join sep (x :: l) = x +:+ sep +:+ Str.join sep l.
Proof. destruct l; [contradiction | reflexivity]. Qed.

Lemma join_split c s : Str.join (String c "") (Str.split c s) = s.
Proof.
  induction s as [|x s IH]; simpl; [reflexivity|].
  destruct (Ascii.eqb_spec x c) as [->|Hne].
  - rewrite join_cons by apply split_not_nil. simpl. now rewrite IH.
  - pose proof (split_not_nil c s) as Hnil.
    destruct (Str.split c s) as [|h t]; [contradiction|].
    destruct t as [|h' t]; simpl in *; now rewrite <- IH.
Qed.

(** Every segment of a split is free of the separator. *)
Lemma split_segments c s :
  forallb (Str.all (fun d => negb (Ascii.eqb d c))) (Str.split c s) = true.
Proof.
  induction s as [|x s IH]; simpl; [reflexivity|].
  destruct (Ascii.eqb x c) eqn:E; simpl; [exact IH|].
  pose proof (split_not_nil c s) as Hnil.
  destruct (Str.split c s) as [|h t]; [contradiction|].
  simpl in *. now rewrite E.
Qed.

End StrFacts.

(** ** Facts on plain URLs *)

Lemma plain_char_spec c :
  is_plain_char c = true ->
  Ascii.eqb c "/" = false /\ Ascii.eqb c "?" = false
  /\ Ascii.eqb c "#" = false /\ Ascii.eqb c ";" = false
  /\ Url.is_safe_url_byte c = true.
Proof.
  unfold is_plain_char. intros [H1 H2]%andb_true_iff.
  apply negb_true_iff in H1.
  repeat (apply orb_false_iff in H1 as [H1 ?]). auto.
Qed.


Lemma path_char_spec c :
  is_path_char c = true ->
  Ascii.eqb c "?" = false /\ Ascii.eqb c "#" = false
  /\ Ascii.eqb c ";" = false /\ Url.is_safe_url_byte c = true.
Proof.
  unfold is_path_char. intros [H | H]%orb_true_iff.
  - apply plain_char_spec in H. tauto.
  - apply Ascii.eqb_eq in H. subst c. repeat split; reflexivity.
Qed.

Lemma path_chars_slashed l :
  forallb (Str.all is_plain_char) l = true ->
  Str.all is_path_char (slashed l) = true.
Proof.
  induction l as [|s l IH]; simpl; [reflexivity|].
  intros [Hs Hl]%andb_true_iff.
  rewrite StrFacts.all_app, (IH Hl), andb_true_r.
  eapply StrFacts.all_impl; [|exact Hs].
  intros c Hc. unfold is_path_char. now rewrite Hc.
Qed.

Lemma path_chars_join l :
  forallb (Str.all is_plain_char) l = true ->
  Str.all is_path_char (Str.join "/" l) = true.
Proof.
  induction l as [|s l IH]; simpl; [reflexivity|].
  intros [Hs Hl]%andb_true_iff.
  assert (Hs' : Str.all is_path_char s = true).
  { eapply StrFacts.all_impl; [|exact Hs].
    intros c Hc. unfold is_path_char. now rewrite Hc. }
  destruct l as [|s' l]; [exact Hs'|].
  rewrite StrFacts.all_app, Hs'. simpl. apply (IH Hl).
Qed.

Lemma slashed_app a b : slashed (a ++ b) = slashed a +:+ slashed b.
Proof.
  induction a as [|s a IH]; simpl; [reflexivity|].
  now rewrite IH, !StrFacts.app_assoc.
Qed.

Lemma no_slash_plain s :
  Str.all is_plain_char s = true ->
  Str.all (fun d => negb (Ascii.eqb d "/")) s = true.
Proof.
  apply StrFacts.all_impl. intros c Hc.
  apply plain_char_spec in Hc as (-> & _). reflexivity.
Qed.

Lemma split_segment_slashed s l :
  Str.all is_plain_char s = true ->
  forallb (Str.all is_plain_char) l = true ->
  Str.split "/" (s +:+ slashed l) = s :: l.
Proof.
  revert s. induction l as [|r l IH]; simpl; intros s Hs Hl.
  - rewrite StrFacts.app_nil_r. now apply StrFacts.split_one, no_slash_plain.
  - apply andb_true_iff in Hl as [Hr Hl].
    rewrite StrFacts.split_app by now apply no_slash_plain.
    now rewrite IH.
Qed.

Lemma split_slashed l :
  l <> [] -> forallb (Str.all is_plain_char) l = true ->
  Str.split "/" (slashed l) = "" :: l.
Proof.
  destruct l as [|s l]; [contradiction|]. intros _ Hl. simpl in *.
  apply andb_true_iff in Hl as [Hs Hl].
  now rewrite split_segment_slashed.
Qed.

Lemma plain_segment_spec s :
  is_plain_segment s = true ->
  Str.truthy s = true /\ Str.all is_plain_char s = true
  /\ String.eqb s "." = false /\ String.eqb s ".." = false.
Proof.
  unfold is_plain_segment.
  intros [[[H1 H2]%andb_true_iff H3]%andb_true_iff H4]%andb_true_iff.
  apply negb_true_iff in H3, H4. auto.
Qed.

Lemma plain_segments_chars l :
  forallb is_plain_segment l = true ->
  forallb (Str.all is_plain_char) l = true.
Proof.
  induction l as [|s l IH]; simpl; [reflexivity|].
  intros [Hs Hl]%andb_true_iff. apply plain_segment_spec in Hs as (_ & -> & _).
  now apply IH.
Qed.

Lemma filter_plain_segments l :
  forallb is_plain_segment l = true -> List.filter Str.truthy l = l.
Proof.
  induction l as [|s l IH]; simpl; [reflexivity|].
  intros [Hs Hl]%andb_true_iff. apply plain_segment_spec in Hs as (-> & _).
  now rewrite IH.
Qed.


Lemma resolve_kept l acc :
  forallb kept l = true -> fold_left Url.resolve_step l acc = acc ++ l.
Proof.
  revert acc. induction l as [|s l IH]; simpl; intros acc.
  - intros _. now rewrite List.app_nil_r.
  - intros [Hs Hl]%andb_true_iff. unfold kept in Hs.
    apply andb_true_iff in Hs as [H1 H2]. apply negb_true_iff in H1, H2.
    unfold Url.resolve_step at 2. rewrite H1, H2, (IH _ Hl).
    now rewrite <- List.app_assoc.
Qed.

Section UrlFacts.

Variable check_bracketed_netloc : string -> option string.

Lemma plain_netloc_spec n :
  is_plain_netloc n = true ->
  Str.truthy n = true
  /\ Str.all Url.is_netloc_char n = true
  /\ Str.all Url.is_safe_url_byte n = true
  /\ Str.mem "[" n = false /\ Str.mem "]" n = false.
Proof.
  unfold is_plain_netloc. intros [H1 H2]%andb_true_iff.
  split; [exact H1|]. repeat split.
  - eapply StrFacts.all_impl; [|exact H2]. intros c [Hc _]%andb_true_iff.
    apply plain_char_spec in Hc as (E1 & E2 & E3 & _).
    unfold Url.is_netloc_char. now rewrite E1, E2, E3.
  - eapply StrFacts.all_impl; [|exact H2]. intros c [Hc _]%andb_true_iff.
    now apply plain_char_spec in Hc.
  - apply StrFacts.mem_none. eapply StrFacts.all_impl; [|exact H2].
    intros c [_ Hc]%andb_true_iff. apply negb_true_iff in Hc.
    apply orb_false_iff in Hc as [-> _]. reflexivity.
  - apply StrFacts.mem_none. eapply StrFacts.all_impl; [|exact H2].
    intros c [_ Hc]%andb_true_iff. apply negb_true_iff in Hc.
    apply orb_false_iff in Hc as [_ ->]. reflexivity.
Qed.

Lemma path_chars_facts p :
  Str.all is_path_char p = true ->
  Str.all Url.is_safe_url_byte p = true
  /\ Str.break "#" p = None /\ Str.break "?" p = None
  /\ Str.mem ";" p = false.
Proof.
  intros H. repeat split.
  - eapply StrFacts.all_impl; [|exact H]. intros c Hc.
    now apply path_char_spec in Hc.
  - apply StrFacts.break_none. eapply StrFacts.all_impl; [|exact H].
    intros c Hc. apply path_char_spec in Hc as (_ & -> & _). reflexivity.
  - apply StrFacts.break_none. eapply StrFacts.all_impl; [|exact H].
    intros c Hc. apply path_char_spec in Hc as (-> & _). reflexivity.
  - apply StrFacts.mem_none. eapply StrFacts.all_impl; [|exact H].
    intros c Hc. apply path_char_spec in Hc as (_ & _ & -> & _). reflexivity.
Qed.

(** Parsing a base URL with scheme http or https, a plain host and a
    path that starts with a slash. *)
Lemma urlparse_base sch n p :
  sch = "http" \/ sch = "https" ->
  is_plain_netloc n = true ->
  Str.all is_path_char p = true ->
  Url.urlparse check_bracketed_netloc (sch +:+ "://" +:+ n +:+ "/" +:+ p) ""
  = Return (Url.mkParse sch n ("/" +:+ p) "" "" "").
Proof.
  intros Hsch Hn Hp.
  apply plain_netloc_spec in Hn as (Hn1 & Hn2 & Hn3 & Hn4 & Hn5).
  pose proof (path_chars_facts _ Hp) as (Hp1 & Hp2 & Hp3 & Hp4).
  assert (Hsafe : Str.filter Url.is_safe_url_byte (n +:+ "/" +:+ p)
                  = n +:+ "/" +:+ p).
  { apply StrFacts.filter_all. rewrite StrFacts.all_app, Hn3. exact Hp1. }
  assert (Hspan : Str.span Url.is_netloc_char (n +:+ "/" +:+ p)
                  = (n, "/" +:+ p)).
  { apply StrFacts.span_all; [exact Hn2 | reflexivity]. }
  simpl in Hsafe, Hspan.
  unfold Url.urlparse, Url.urlsplit, mbind, Outcome_bind.
  destruct Hsch as [-> | ->]; simpl.
  all: rewrite Hsafe, Hspan, Hn4, Hn5; simpl; rewrite Hp2; simpl.
  all: rewrite Hp3; simpl.
  all: rewrite Hp4; reflexivity.
Qed.

(** Parsing the relative reference [api/...] made of path characters. *)
Lemma urlparse_rel sch x :
  sch = "http" \/ sch = "https" ->
  Str.all is_path_char ("api/" +:+ x) = true ->
  Url.urlparse check_bracketed_netloc ("api/" +:+ x) sch
  = Return (Url.mkParse sch "" ("api/" +:+ x) "" "" "").
Proof.
  intros Hsch Hx.
  change (Str.all is_path_char ("api/" +:+ x))
    with (Str.all is_path_char x) in Hx.
  apply path_chars_facts in Hx as (Hx1 & Hx2 & Hx3 & Hx4).
  assert (Hsafe : Str.filter Url.is_safe_url_byte x = x).
  { apply StrFacts.filter_all. exact Hx1. }
  unfold Url.urlparse, Url.urlsplit, mbind, Outcome_bind.
  destruct Hsch as [-> | ->]; simpl; rewrite Hsafe.
  all: destruct (Str.break ":" x) as [[a b]|]; simpl.
  all: rewrite Hx2; simpl; rewrite Hx3; simpl; rewrite Hx4.
  all: reflexivity.
Qed.

Lemma plain_path_spec rel :
  is_plain_path rel = true ->
  exists init last,
    Str.split "/" rel = init ++ [last]
    /\ forallb is_plain_segment init = true
    /\ (last = "" \/ is_plain_segment last = true).
Proof.
  unfold is_plain_path. intros H.
  destruct (rev (Str.split "/" rel)) as [|last init'] eqn:E; [discriminate|].
  apply andb_true_iff in H as [Hlast Hinit].
  exists (rev init'), last. repeat split.
  - rewrite <- (rev_involutive (Str.split "/" rel)), E. reflexivity.
  - apply forallb_forall. intros s Hs. apply in_rev in Hs.
    eapply forallb_forall in Hinit; eauto.
  - apply orb_true_iff in Hlast as [Hl | Hl]; [left | now right].
    destruct last; [reflexivity | discriminate].
Qed.

Lemma forallb_snoc {A} (p : A -> bool) l x :
  forallb p (l ++ [x]) = forallb p l && p x.
Proof. rewrite forallb_app. simpl. now rewrite andb_true_r. Qed.

Lemma last_or_plain_chars last :
  last = "" \/ is_plain_segment last = true ->
  Str.all is_plain_char last = true /\ kept last = true.
Proof.
  intros [-> | H]; [split; reflexivity|].
  apply plain_segment_spec in H as (_ & H2 & H3 & H4).
  unfold kept. now rewrite H2, H3, H4.
Qed.

Lemma plain_segments_kept l :
  forallb is_plain_segment l = true -> forallb kept l = true.
Proof.
  induction l as [|s l IH]; simpl; [reflexivity|].
  intros [Hs Hl]%andb_true_iff.
  apply plain_segment_spec in Hs as (_ & _ & H3 & H4).
  unfold kept at 1. rewrite H3, H4. now apply IH.
Qed.


Lemma filter_middle_plain bsegs trailing init last :
  forallb is_plain_segment bsegs = true ->
  forallb is_plain_segment init = true ->
  Url.filter_middle (("" :: bsegs ++ closing trailing) ++ init ++ [last])
  = "" :: bsegs ++ init ++ [last].
Proof.
  intros Hb Hi. unfold Url.filter_middle.
  change (("" :: bsegs ++ closing trailing) ++ init ++ [last])
    with ("" :: ((bsegs ++ closing trailing) ++ init ++ [last])).
  destruct ((bsegs ++ closing trailing) ++ init ++ [last]) as [|y t] eqn:E.
  { exfalso. destruct bsegs, trailing; discriminate. }
  rewrite <- E. f_equal.
  replace ((bsegs ++ closing trailing) ++ init ++ [last])
    with ((bsegs ++ closing trailing ++ init) ++ [last])
    by now rewrite <- !List.app_assoc.
  rewrite List.removelast_last, List.last_last.
  rewrite !List.filter_app, (filter_plain_segments _ Hb),
    (filter_plain_segments _ Hi).
  destruct trailing; simpl; now rewrite <- List.app_assoc.
Qed.

Lemma join_slashed bsegs psegs :
  psegs <> [] ->
  "/" +:+ Str.join "/" (bsegs ++ psegs)
  = slashed bsegs +:+ "/" +:+ Str.join "/" psegs.
Proof.
  intros Hp. induction bsegs as [|s l IH]; [reflexivity|].
  change ((s :: l) ++ psegs) with (s :: (l ++ psegs)).
  rewrite StrFacts.join_cons
  by (destruct l, psegs; [contradiction|discriminate..]).
  cbn [slashed]. rewrite !StrFacts.app_assoc. simpl.
  f_equal. f_equal. exact IH.
Qed.

Lemma slashed_closing trailing :
  slashed (closing trailing) = (if trailing then "/" else "") +:+ "/".
Proof. destruct trailing; reflexivity. Qed.

(** The join of a base URL in plain form with a plain [api/...]
    path. *)
Lemma urljoin_plain sch n bsegs trailing x :
  sch = "http" \/ sch = "https" ->
  is_plain_netloc n = true ->
  forallb is_plain_segment bsegs = true ->
  is_plain_path ("api/" +:+ x) = true ->
  Url.urljoin check_bracketed_netloc
    (base_url sch n bsegs trailing +:+ "/") ("api/" +:+ x)
  = Return (sch +:+ "://" +:+ n +:+ slashed bsegs +:+ "/" +:+ "api/" +:+ x).
Proof.
  intros Hsch Hn Hb Hx.
  apply plain_path_spec in Hx as (init & last & Hsplit & Hinit & Hlast).
  pose proof (last_or_plain_chars _ Hlast) as (Hlast1 & Hlast2).
  assert (Hrel : "api/" +:+ x = Str.join "/" (init ++ [last])).
  { rewrite <- Hsplit. symmetry. apply StrFacts.join_split. }
  assert (Hchars : Str.all is_path_char ("api/" +:+ x) = true).
  { rewrite Hrel. apply path_chars_join. rewrite forallb_snoc, Hlast1.
    now rewrite (plain_segments_chars _ Hinit). }
  assert (Hbase : base_url sch n bsegs trailing +:+ "/"
                  = sch +:+ "://" +:+ n
                    +:+ slashed (bsegs ++ closing trailing)).
  { unfold base_url. rewrite slashed_app, slashed_closing.
    now rewrite !StrFacts.app_assoc. }
  assert (Hbchars :
    forallb (Str.all is_plain_char) (bsegs ++ closing trailing) = true).
  { rewrite forallb_app, (plain_segments_chars _ Hb).
    now destruct trailing. }
  assert (Hne : bsegs ++ closing trailing <> []).
  { destruct bsegs, trailing; discriminate. }
  pose proof (split_slashed _ Hne Hbchars) as Hbsplit.
  pose proof (path_chars_slashed _ Hbchars) as Hpchars.
  destruct (bsegs ++ closing trailing) as [|s0 rest] eqn:Ebc;
    [contradiction|].
  change (slashed (s0 :: rest)) with ("/" +:+ s0 +:+ slashed rest)
    in Hbase, Hbsplit, Hpchars.
  change (Str.all is_path_char ("/" +:+ s0 +:+ slashed rest))
    with (Str.all is_path_char (s0 +:+ slashed rest)) in Hpchars.
  unfold Url.urljoin. rewrite Hbase.
  rewrite (urlparse_base _ _ _ Hsch Hn Hpchars).
  assert (Htb : Str.truthy (sch +:+ "://" +:+ n +:+ "/"
                            +:+ s0 +:+ slashed rest) = true).
  { destruct Hsch as [-> | ->]; reflexivity. }
  rewrite Htb. cbn [negb].
  change (Str.truthy ("api/" +:+ x)) with true. cbn [negb].
  unfold mbind, Outcome_bind. cbn [Url.scheme].
  rewrite (urlparse_rel _ _ Hsch Hchars).
  cbn [Url.scheme Url.netloc Url.path Url.params Url.query Url.fragment].
  rewrite String.eqb_refl.
  assert (Hrelv : Str.in_list sch Url.uses_relative = true).
  { destruct Hsch as [-> | ->]; reflexivity. }
  assert (Hnetv : Str.in_list sch Url.uses_netloc = true).
  { destruct Hsch as [-> | ->]; reflexivity. }
  rewrite Hrelv, Hnetv. cbn [negb orb andb Str.truthy].
  change (Str.truthy ("api/" +:+ x)) with true. cbn [negb orb andb].
  change (String.prefix "/" ("api/" +:+ x)) with false. cbv iota.
  rewrite Hbsplit, Hsplit, <- Ebc.
  assert (Hlastb : List.last ("" :: bsegs ++ closing trailing) "" = "").
  { change ("" :: bsegs ++ closing trailing)
      with (("" :: bsegs) ++ closing trailing).
    destruct trailing; simpl closing.
    - change [""; ""] with ([""] ++ [""]). rewrite List.app_assoc.
      apply List.last_last.
    - apply List.last_last. }
  rewrite Hlastb. cbn [Str.truthy].
  rewrite (filter_middle_plain _ _ _ _ Hb Hinit).
  rewrite resolve_kept.
  2:{ change ("" :: bsegs ++ init ++ [last])
        with ([""] ++ bsegs ++ init ++ [last]).
      rewrite !forallb_app, (plain_segments_kept _ Hb),
        (plain_segments_kept _ Hinit). simpl. now rewrite Hlast2. }
  cbn [List.app].
  assert (Hlasts : List.last ("" :: bsegs ++ init ++ [last]) "" = last).
  { change ("" :: bsegs ++ init ++ [last])
      with (("" :: bsegs) ++ init ++ [last]).
    rewrite List.app_assoc. apply List.last_last. }
  rewrite Hlasts.
  assert (Hdots : Str.in_list last ["."; ".."] = false).
  { unfold kept in Hlast2. apply andb_true_iff in Hlast2 as [H1 H2].
    apply negb_true_iff in H1, H2. simpl. now rewrite H1, H2. }
  rewrite Hdots.
  rewrite StrFacts.join_cons by (destruct bsegs, init; discriminate).
  change ("" +:+ "/" +:+ Str.join "/" (bsegs ++ init ++ [last]))
    with ("/" +:+ Str.join "/" (bsegs ++ init ++ [last])).
  rewrite join_slashed by (destruct init; discriminate).
  rewrite <- Hrel.
  apply plain_netloc_spec in Hn as (Hn1 & _).
  unfold Url.urlunparse, Url.urlunsplit.
  cbn [Url.scheme Url.netloc Url.path Url.params Url.query Url.fragment
       Url.s_scheme Url.s_netloc Url.s_path Url.s_query Url.s_fragment
       Str.truthy].
  rewrite Hn1. cbn [orb].
  destruct bsegs as [|b0 bs]; destruct Hsch as [-> | ->]; simpl;
    rewrite ?StrFacts.prefix_empty; reflexivity.
Qed.

End UrlFacts.

(** ** The response check and the request *)


Ltac unfold_monad :=
  unfold mbind, M_bind, mret, M_ret, raise_ApiException, raise, try_except,
    lift, get_self, read_dict, alloc, getenv in *.

Ltac unfold_check :=
  unfold ApiClient__check_and_return_response, http_error_handler,
    Response_raise_for_status, Response_json, value_get in *.

Lemma raise_for_status_range r :
  Response.raise_for_status r <> None <->
  (400 <= Response.status_code r < 600)%Z.
Proof.
  unfold Response.raise_for_status.
  destruct (400 <=? Response.status_code r)%Z eqn:H1;
    destruct (Response.status_code r <? 500)%Z eqn:H2;
    destruct (500 <=? Response.status_code r)%Z eqn:H3;
    destruct (Response.status_code r <? 600)%Z eqn:H4; simpl;
    split; intros H; try congruence; try lia.
Qed.

Lemma isinstance_RequestException cls :
  Requests.isinstance cls RequestException = true.
Proof. destruct cls; reflexivity. Qed.

Section CheckFacts.

Variables (self : loc) (c : ApiClient.t) (r : Response.t) (w : World).
Hypothesis Hself : heap w !! self = Some (ObjApiClient c).

Lemma check_keeps_world self' r' w' :
  snd (ApiClient__check_and_return_response self' r' w') = w'.
Proof.
  unfold_check. unfold_monad.
  destruct (heap w' !! self') as [[d|c']|]; simpl; try reflexivity.
  destruct (negb (Response.status_code r' =? 200)%Z
            && ApiClient.raise_for_status c'); simpl; try reflexivity.
  destruct (Response.raise_for_status r'); simpl; try reflexivity.
  destruct (Response.json r') as [v|detail]; simpl; try reflexivity.
  destruct v; simpl; try reflexivity.
  destruct (Py.truthy (Py.get d "message" (PStr ""))); reflexivity.
Qed.

(** The response comes back when the flag is off, the status is 200,
    or [raise_for_status()] has nothing to raise. *)
Lemma check_returns :
  ApiClient.raise_for_status c = false
  \/ Response.status_code r = 200%Z
  \/ Response.raise_for_status r = None ->
  ApiClient__check_and_return_response self r w = (Return r, w).
Proof.
  intros H. unfold_check. unfold_monad. rewrite Hself.
  destruct H as [H | [H | H]]; rewrite H; simpl.
  - rewrite andb_false_r. reflexivity.
  - reflexivity.
  - destruct (negb _ && _); reflexivity.
Qed.

Hypothesis Hflag : ApiClient.raise_for_status c = true.
Hypothesis Hstatus : (400 <= Response.status_code r < 600)%Z.

Lemma check_enters : exists msg,
  Response.raise_for_status r = Some msg
  /\ negb (Response.status_code r =? 200)%Z
     && ApiClient.raise_for_status c = true.
Proof.
  destruct (Response.raise_for_status r) as [msg|] eqn:E.
  - exists msg. split; [reflexivity|]. rewrite Hflag, andb_true_r.
    apply negb_true_iff, Z.eqb_neq. lia.
  - exfalso. apply raise_for_status_range in Hstatus. congruence.
Qed.

Lemma check_object d :
  Response.json r = Response.Decoded (PDict d) ->
  ApiClient__check_and_return_response self r w =
    (Raise (ExcApiException
              (mkApiException
                 ("Error HTTP: "
                  +:+ Py.str (Py.or (Py.get d "message" (PStr ""))
                                (Py.or (Py.get d "exception" (PStr ""))
                                   (PStr "Error desconocido."))))
                 PNone PNone)), w).
Proof.
  intros Hjson. destruct check_enters as (msg & Hmsg & Hcond).
  unfold_check. unfold_monad. rewrite Hself, Hcond, Hmsg, Hjson. simpl.
  unfold Py.or.
  destruct (Py.truthy (Py.get d "message" (PStr ""))); reflexivity.
Qed.

Lemma check_not_json detail :
  Response.json r = Response.NotJson detail ->
  ApiClient__check_and_return_response self r w =
    (Raise (ExcApiException
              (mkApiException
                 ("Error HTTP: Error al decodificar los datos en JSON: "
                  +:+ Response.text r) PNone PNone)), w).
Proof.
  intros Hjson. destruct check_enters as (msg & Hmsg & Hcond).
  unfold_check. unfold_monad. rewrite Hself, Hcond, Hmsg, Hjson. simpl.
  reflexivity.
Qed.

Lemma check_non_object v :
  Response.json r = Response.Decoded v ->
  (forall d, v <> PDict d) ->
  ApiClient__check_and_return_response self r w =
    (Raise (ExcAttributeError
              ("'" +:+ Py.type_name v
               +:+ "' object has no attribute 'get'")), w).
Proof.
  intros Hjson Hv. destruct check_enters as (msg & Hmsg & Hcond).
  unfold_check. unfold_monad. rewrite Hself, Hcond, Hmsg, Hjson. simpl.
  destruct v; try reflexivity. exfalso. eapply Hv. reflexivity.
Qed.

End CheckFacts.

(** The response check raises no exception of [requests]. *)
Lemma check_no_requests_exception self r w cls detail :
  fst (ApiClient__check_and_return_response self r w)
  <> Raise (ExcRequests cls detail).
Proof.
  unfold_check. unfold_monad.
  destruct (heap w !! self) as [[d|c']|]; simpl; try congruence.
  destruct (negb (Response.status_code r =? 200)%Z
            && ApiClient.raise_for_status c'); simpl; try congruence.
  destruct (Response.raise_for_status r); simpl; try congruence.
  destruct (Response.json r) as [v|detail']; simpl; try congruence.
  destruct v; simpl; try congruence.
  destruct (Py.truthy (Py.get d "message" (PStr ""))); simpl; congruence.
Qed.

Section RequestFacts.

Variable check_bracketed_netloc : string -> option string.
Variable transport :
  list Sent -> Sent -> TransportResult * gmap string string.

Abbreviation full_url := (full_url check_bracketed_netloc).
Abbreviation request :=
  (ApiClient__request check_bracketed_netloc transport).
Abbreviation call := (call check_bracketed_netloc transport).
Abbreviation run := (run check_bracketed_netloc transport).

Lemma call_request verb self resource data headers :
  call verb self resource data headers =
  request self (verb_method verb) resource
    (verb_data verb data) headers.
Proof. destruct verb; reflexivity. Qed.

Lemma fresh_not_used (w : World) (l : loc) (o : PyObj) :
  heap w !! l = Some o -> fresh (dom (heap w)) <> l.
Proof.
  intros H E. apply (is_fresh (dom (heap w))). rewrite E.
  apply elem_of_dom. eauto.
Qed.

(** One call of [__request] on a client that exists, up to the answer
    of the Transport. *)
Lemma request_run self method resource data headers w c dflt given u :
  ready w self c dflt headers given ->
  full_url c resource = Return u ->
  let wire := mkSent method u (encode_data data) (merge_headers dflt given) in
  let w' :=
    mkWorld (<[fresh (dom (heap w)) :=
                 ObjDict (snd (transport (sent w) wire))]> (heap w))
            (environ w) (sent w ++ [wire]) in
  request self method resource data headers w =
  match fst (transport (sent w) wire) with
  | Responds r => (fst (ApiClient__check_and_return_response self r w'), w')
  | Fails cls detail => request_handler (ExcRequests cls detail) w'
  end.
Proof.
  intros (Hself & Hdflt & Hgiven) Hurl wire w'.
  unfold ApiClient__request. unfold_monad. rewrite Hself, Hurl.
  destruct headers as [h|]; [rewrite Hgiven | subst given].
  all: rewrite Hdflt; unfold requests_request; simpl.
  all: rewrite lookup_insert_eq; fold wire; subst w'.
  all: destruct (transport (sent w) wire) as [answer after] eqn:Ht; simpl.
  all: rewrite insert_insert_eq.
  all: set (w' := mkWorld _ _ _).
  all: destruct answer as [r | cls detail]; [|reflexivity].
  all: pose proof (check_keeps_world self r w') as Hw.
  all: pose proof (check_no_requests_exception self r w') as Hne.
  all: destruct (ApiClient__check_and_return_response self r w')
         as [out w''].
  all: simpl in *; subst w''; destruct out as [a | e]; [reflexivity|].
  all: destruct e; try reflexivity; exfalso; eapply Hne; reflexivity.
Qed.

Lemma request_handler_requests cls detail (w : World) :
  request_handler (A := Response.t) (ExcRequests cls detail) w =
  (Raise (ExcApiException
            (mkApiException
               ((if Requests.isinstance cls ConnectionError
                 then "Error de " +:+ conexion +:+ ": "
                 else if Requests.isinstance cls Timeout
                      then "Error de timeout: "
                      else "Error en la solicitud: ") +:+ detail)
               PNone PNone)), w).
Proof.
  unfold request_handler. unfold_monad.
  destruct (Requests.isinstance cls ConnectionError).
  - reflexivity.
  - destruct (Requests.isinstance cls Timeout); [reflexivity|].
    rewrite isinstance_RequestException. reflexivity.
Qed.

(** The world after a call: one more dict on the heap, one more call
    on the wire. *)
Lemma request_world self method resource data headers w c dflt given u :
  ready w self c dflt headers given ->
  full_url c resource = Return u ->
  let wire := mkSent method u (encode_data data) (merge_headers dflt given) in
  snd (request self method resource data headers w) =
  mkWorld (<[fresh (dom (heap w)) :=
               ObjDict (snd (transport (sent w) wire))]> (heap w))
          (environ w) (sent w ++ [wire]).
Proof.
  intros Hready Hurl wire.
  rewrite (request_run _ _ _ _ _ _ _ _ _ _ Hready Hurl). fold wire.
  destruct (fst (transport (sent w) wire)) as [r | cls detail].
  - reflexivity.
  - rewrite request_handler_requests. reflexivity.
Qed.

(** The outcome of a call the Transport answers with a response. *)
Lemma request_responds self method resource data headers w c dflt given u
    r after :
  ready w self c dflt headers given ->
  full_url c resource = Return u ->
  transport (sent w)
    (mkSent method u (encode_data data) (merge_headers dflt given))
  = (Responds r, after) ->
  exists w',
    heap w' !! self = Some (ObjApiClient c)
    /\ fst (request self method resource data headers w) =
       fst (ApiClient__check_and_return_response self r w').
Proof.
  intros Hready Hurl Ht.
  rewrite (request_run _ _ _ _ _ _ _ _ _ _ Hready Hurl), Ht. simpl.
  eexists. split; [|reflexivity]. simpl.
  destruct Hready as (Hself & _).
  rewrite lookup_insert_ne; [exact Hself|].
  eapply fresh_not_used, Hself.
Qed.

End RequestFacts.

(** ** The URL the specification describes *)

Lemma drop_trailing_slash_app a b :
  b <> "" -> drop_trailing_slash (a +:+ b) = a +:+ drop_trailing_slash b.
Proof.
  intros Hb. induction a as [|c a IH]; [reflexivity|].
  change (String c a +:+ b) with (String c (a +:+ b)).
  change (String c a +:+ drop_trailing_slash b)
    with (String c (a +:+ drop_trailing_slash b)).
  rewrite <- IH. simpl.
  destruct (a +:+ b) as [|d rest] eqn:E; [|reflexivity].
  exfalso. destruct a; simpl in E; [contradiction | discriminate].
Qed.

Lemma drop_trailing_slash_keeps s :
  Str.all (fun d => negb (Ascii.eqb d "/")) s = true ->
  drop_trailing_slash s = s.
Proof.
  induction s as [|c s IH]; [reflexivity|]. simpl.
  intros [Hc Hs]%andb_true_iff. apply negb_true_iff in Hc.
  destruct s as [|d s']; [now rewrite Hc|]. now rewrite (IH Hs).
Qed.

Lemma truthy_not_empty s : Str.truthy s = true -> s <> "".
Proof. destruct s; [discriminate | discriminate]. Qed.

Lemma drop_trailing_slash_slashed l :
  l <> [] -> forallb is_plain_segment l = true ->
  drop_trailing_slash (slashed l) = slashed l.
Proof.
  induction l as [|s l IH]; [contradiction|]. intros _ Hl.
  simpl in Hl. apply andb_true_iff in Hl as [Hs Hl].
  apply plain_segment_spec in Hs as (Hs1 & Hs2 & _).
  cbn [slashed]. destruct l as [|s' l'].
  - cbn [slashed]. rewrite StrFacts.app_nil_r.
    rewrite drop_trailing_slash_app by now apply truthy_not_empty.
    now rewrite drop_trailing_slash_keeps by now apply no_slash_plain.
  - rewrite <- StrFacts.app_assoc.
    rewrite drop_trailing_slash_app by discriminate.
    rewrite IH by (discriminate || assumption).
    now rewrite StrFacts.app_assoc.
Qed.

Lemma drop_trailing_slash_base sch n bsegs trailing :
  is_plain_netloc n = true ->
  forallb is_plain_segment bsegs = true ->
  drop_trailing_slash (base_url sch n bsegs trailing)
  = sch +:+ "://" +:+ n +:+ slashed bsegs.
Proof.
  intros Hn Hb. unfold base_url.
  assert (Hn' : drop_trailing_slash n = n /\ n <> "").
  { unfold is_plain_netloc in Hn. apply andb_true_iff in Hn as [H1 H2].
    split; [|now apply truthy_not_empty].
    apply drop_trailing_slash_keeps. eapply StrFacts.all_impl; [|exact H2].
    intros c [Hc _]%andb_true_iff.
    apply plain_char_spec in Hc as (-> & _). reflexivity. }
  destruct Hn' as [Hn1 Hn2].
  assert (Hcore : drop_trailing_slash (n +:+ slashed bsegs)
                  = n +:+ slashed bsegs).
  { destruct bsegs as [|s l].
    - cbn [slashed]. now rewrite StrFacts.app_nil_r.
    - rewrite drop_trailing_slash_app by discriminate.
      now rewrite drop_trailing_slash_slashed. }
  destruct trailing.
  - rewrite <- !StrFacts.app_assoc.
    rewrite drop_trailing_slash_app by discriminate.
    cbn [drop_trailing_slash]. simpl. now rewrite StrFacts.app_nil_r.
  - rewrite StrFacts.app_nil_r, <- !StrFacts.app_assoc.
    rewrite StrFacts.app_assoc.
    rewrite drop_trailing_slash_app.
    + now rewrite Hcore, StrFacts.app_assoc.
    + destruct n; [contradiction | discriminate].
Qed.

Section FullUrl.

Variable check_bracketed_netloc : string -> option string.

(** Lines 143 and 144 on a plain base URL and a plain path: the URL
    the specification describes. *)
Lemma full_url_plain c resource sch n bsegs trailing :
  ApiClient.url c = base_url sch n bsegs trailing ->
  sch = "http" \/ sch = "https" ->
  is_plain_netloc n = true ->
  forallb is_plain_segment bsegs = true ->
  is_plain_path ("api/" +:+ ApiClient.version c +:+ resource) = true ->
  full_url check_bracketed_netloc c resource
  = Return (spec_full_url (ApiClient.url c) (ApiClient.version c) resource).
Proof.
  intros Hurl Hsch Hn Hb Hp. unfold full_url, spec_full_url.
  rewrite Hurl, (drop_trailing_slash_base _ _ _ _ Hn Hb).
  change (Str.lstrip (Ascii.eqb "/")
            ("/api/" +:+ ApiClient.version c +:+ resource))
    with ("api/" +:+ ApiClient.version c +:+ resource).
  rewrite (urljoin_plain _ _ _ _ _ _ Hsch Hn Hb Hp).
  now rewrite !StrFacts.app_assoc.
Qed.

End FullUrl.

(** ** Exceptions without a code *)

Lemma codeless_ret {A} (a : A) : codeless (mret a).
Proof. intros w. exact I. Qed.

Lemma codeless_raise {A} (e : PyExc) : codeless_exc e -> codeless (@raise A e).
Proof. intros H w. exact H. Qed.

Lemma codeless_raise_ApiException {A} msg :
  codeless (@raise_ApiException A msg).
Proof. intros w. split; reflexivity. Qed.

Lemma codeless_bind {A B} (m : M A) (f : A -> M B) :
  codeless m -> (forall a, codeless (f a)) -> codeless (m ≫= f).
Proof.
  intros Hm Hf w. unfold mbind, M_bind. specialize (Hm w).
  destruct (m w) as [[a | e] w']; [apply Hf | exact Hm].
Qed.

Lemma codeless_try {A} (body : M A) (handler : PyExc -> M A) :
  codeless body ->
  (forall e, codeless_exc e -> codeless (handler e)) ->
  codeless (try_except body handler).
Proof.
  intros Hb Hh w. unfold try_except. specialize (Hb w).
  destruct (body w) as [[a | e] w']; [exact I | now apply Hh].
Qed.

Lemma codeless_lift {A} (o : Outcome A) :
  codeless_outcome o -> codeless (lift o).
Proof. intros H w. exact H. Qed.

Lemma codeless_get_self self : codeless (get_self self).
Proof. intros w. unfold get_self. now destruct (heap w !! self) as [[|]|]. Qed.

Lemma codeless_read_dict l : codeless (read_dict l).
Proof. intros w. unfold read_dict. now destruct (heap w !! l) as [[|]|]. Qed.

Lemma codeless_alloc o : codeless (alloc o).
Proof. intros w. exact I. Qed.

Lemma codeless_getenv name : codeless (getenv name).
Proof. intros w. exact I. Qed.

Lemma codeless_value_get v k d : codeless (value_get v k d).
Proof. destruct v; first [apply codeless_ret | now apply codeless_raise]. Qed.

Lemma codeless_check self r :
  codeless (ApiClient__check_and_return_response self r).
Proof.
  unfold ApiClient__check_and_return_response.
  apply codeless_bind; [apply codeless_get_self | intros c].
  apply codeless_bind; [|intros _; apply codeless_ret].
  destruct (negb _ && _); [|apply codeless_ret].
  apply codeless_try.
  - unfold Response_raise_for_status.
    destruct (Response.raise_for_status r);
      [now apply codeless_raise | apply codeless_ret].
  - intros e He. destruct e; try now apply codeless_raise.
    destruct (Requests.isinstance cls HTTPError);
      [|now apply codeless_raise].
    unfold http_error_handler. apply codeless_bind.
    + apply codeless_try.
      * apply codeless_bind.
        { unfold Response_json. destruct (Response.json r);
            [apply codeless_ret | now apply codeless_raise]. }
        intros v. apply codeless_bind; [apply codeless_value_get|].
        intros m. destruct (Py.truthy m); [apply codeless_ret|].
        apply codeless_bind; [apply codeless_value_get|].
        intros m'. apply codeless_ret.
      * intros e' He'. destruct (is_json_JSONDecodeError e');
          [apply codeless_ret | now apply codeless_raise].
    + intros m. apply codeless_raise_ApiException.
Qed.

Lemma codeless_outcome_bind {A B} (o : Outcome A) (f : A -> Outcome B) :
  codeless_outcome o -> (forall a, codeless_outcome (f a)) ->
  codeless_outcome (o ≫= f).
Proof. destruct o as [a | e]; simpl; auto. Qed.

Lemma codeless_match_slashes {A} (url : string) (f : string -> Outcome A)
    (d : Outcome A) :
  codeless_outcome d -> (forall rest, codeless_outcome (f rest)) ->
  codeless_outcome
    (match url with
     | String "/" (String "/" rest) => f rest
     | _ => d
     end).
Proof.
  intros Hd Hf. destruct url as [|c1 url]; [exact Hd|].
  destruct c1 as [[] [] [] [] [] [] [] []]; try exact Hd.
  destruct url as [|c2 url]; [exact Hd|].
  destruct c2 as [[] [] [] [] [] [] [] []]; try exact Hd. apply Hf.
Qed.

Section CodelessUrl.

Variable check_bracketed_netloc : string -> option string.

Lemma codeless_urlsplit url scheme :
  codeless_outcome (Url.urlsplit check_bracketed_netloc url scheme).
Proof.
  unfold Url.urlsplit.
  destruct (match Str.break ":" _ with Some _ => _ | None => _ end)
    as [sch rest].
  apply codeless_outcome_bind.
  - apply codeless_match_slashes; [exact I | intros rest'].
    destruct (Str.span Url.is_netloc_char rest') as [n u].
    destruct (xorb _ _); [exact I|].
    destruct (_ && _); [|exact I].
    destruct (check_bracketed_netloc n); exact I.
  - intros [n u].
    destruct (match Str.break "#" u with Some _ => _ | None => _ end).
    destruct (match Str.break "?" _ with Some _ => _ | None => _ end).
    exact I.
Qed.

Lemma codeless_urlparse url scheme :
  codeless_outcome (Url.urlparse check_bracketed_netloc url scheme).
Proof.
  unfold Url.urlparse. apply codeless_outcome_bind;
    [apply codeless_urlsplit | intros r].
  destruct (_ && _); [destruct (Url.splitparams _)|]; exact I.
Qed.

Lemma codeless_urljoin base url :
  codeless_outcome (Url.urljoin check_bracketed_netloc base url).
Proof.
  unfold Url.urljoin.
  destruct (negb (Str.truthy base)); [exact I|].
  destruct (negb (Str.truthy url)); [exact I|].
  apply codeless_outcome_bind; [apply codeless_urlparse | intros b].
  apply codeless_outcome_bind; [apply codeless_urlparse | intros u].
  destruct (_ || _); [exact I|].
  destruct (_ && _); [exact I|].
  destruct (_ && _); exact I.
Qed.

End CodelessUrl.

(** ** Construction *)

Lemma codeless_init token url version flag :
  codeless (ApiClient__init__ token url version flag).
Proof.
  unfold ApiClient__init__.
  apply codeless_bind.
  { unfold ApiClient__validate_token.
    apply codeless_bind; [apply codeless_getenv | intros from_env].
    destruct (if opt_truthy token then token else from_env) as [t|];
      [|apply codeless_raise_ApiException].
    destruct (Str.truthy t);
      [apply codeless_ret | apply codeless_raise_ApiException]. }
  intros t. apply codeless_bind.
  { unfold ApiClient__validate_url. destruct url as [u|].
    - destruct (Str.truthy u); [apply codeless_ret|].
      apply codeless_bind; [apply codeless_getenv|].
      intros e; apply codeless_ret.
    - apply codeless_bind; [apply codeless_getenv|].
      intros e; apply codeless_ret. }
  intros u. apply codeless_bind; [apply codeless_alloc|].
  intros h. apply codeless_alloc.
Qed.

(** The token [__validate_token] settles on, when it settles on one. *)
Lemma validate_token_returns token w t w' :
  ApiClient__validate_token token w = (Return t, w') ->
  w' = w
  /\ exists chosen,
       Str.truthy chosen = true /\ t = Str.py_strip chosen
       /\ (opt_truthy token = true -> token = Some chosen)
       /\ (opt_truthy token = false ->
           environ w !! "BHEXPRESS_API_TOKEN" = Some chosen).
Proof.
  unfold ApiClient__validate_token, getenv, mbind, M_bind, mret, M_ret,
    raise_ApiException, raise.
  destruct (opt_truthy token) eqn:Ht.
  - destruct token as [s|]; [|discriminate]. simpl in Ht. rewrite Ht.
    intros [= <- <-]. split; [reflexivity|]. exists s.
    split; [exact Ht|]. split; [reflexivity|].
    split; [reflexivity | simpl; congruence].
  - destruct (environ w !! "BHEXPRESS_API_TOKEN") as [s|] eqn:He;
      [|discriminate].
    destruct (Str.truthy s) eqn:Hs; [|discriminate].
    intros [= <- <-]. split; [reflexivity|]. exists s.
    split; [exact Hs|]. split; [reflexivity|].
    split; [congruence | reflexivity].
Qed.

Lemma validate_url_returns url w :
  exists u, ApiClient__validate_url url w = (Return u, w).
Proof.
  unfold ApiClient__validate_url, getenv, mbind, M_bind, mret, M_ret.
  destruct url as [s|]; [destruct (Str.truthy s)|]; eexists; reflexivity.
Qed.

(** What a successful construction leaves in the world. *)
Lemma init_returns token url version flag w0 self w :
  ApiClient__init__ token url version flag w0 = (Return self, w) ->
  exists c,
    heap w !! self = Some (ObjApiClient c)
    /\ heap w !! ApiClient.headers c
       = Some (ObjDict (default_headers (ApiClient.token c)))
    /\ ApiClient.raise_for_status c = flag
    /\ ApiClient__validate_token token w0 = (Return (ApiClient.token c), w0)
    /\ environ w = environ w0 /\ sent w = sent w0
    /\ forall l o, heap w0 !! l = Some o -> heap w !! l = Some o.
Proof.
  unfold ApiClient__init__. unfold mbind at 1. unfold M_bind.
  destruct (ApiClient__validate_token token w0) as [[t | e] w1] eqn:Ht;
    [|discriminate].
  destruct (validate_token_returns _ _ _ _ Ht) as [-> _].
  unfold mbind at 1. unfold M_bind.
  destruct (validate_url_returns url w0) as [u ->].
  unfold ApiClient__generate_headers, alloc, mbind, M_bind. simpl.
  intros [= <- <-]. simpl.
  set (l1 := fresh (dom (heap w0))).
  set (h1 := <[l1 := ObjDict (default_headers t)]> (heap w0)).
  set (l2 := fresh (dom h1)).
  assert (Hne : l2 <> l1).
  { intros E. apply (is_fresh (dom h1)). fold l2. rewrite E.
    apply elem_of_dom. unfold h1. rewrite lookup_insert_eq. eauto. }
  eexists. split; [apply lookup_insert_eq|]. simpl.
  split; [|split; [reflexivity|split; [reflexivity|]]].
  - rewrite lookup_insert_ne by exact Hne. unfold h1.
    apply lookup_insert_eq.
  - repeat split. intros l o Hl.
    assert (Hl1 : l1 <> l).
    { intros E. apply (is_fresh (dom (heap w0))). fold l1. rewrite E.
      apply elem_of_dom. eauto. }
    assert (Hl2 : l2 <> l).
    { intros E. apply (is_fresh (dom h1)). fold l2. rewrite E.
      apply elem_of_dom. unfold h1. rewrite lookup_insert_ne by exact Hl1.
      eauto. }
    rewrite lookup_insert_ne by exact Hl2. unfold h1.
    now rewrite lookup_insert_ne by exact Hl1.
Qed.

(** ** The verbs *)

Section Claims.

Variable check_bracketed_netloc : string -> option string.
Variable transport :
  list Sent -> Sent -> TransportResult * gmap string string.

Abbreviation full_url := (full_url check_bracketed_netloc).
Abbreviation request :=
  (ApiClient__request check_bracketed_netloc transport).
Abbreviation call := (call check_bracketed_netloc transport).
Abbreviation run := (run check_bracketed_netloc transport).

(** The wire-level call a verb hands to the Transport. *)
Abbreviation wire_of verb u data dflt given :=
  (mkSent (verb_method verb) u (encode_data (verb_data verb data))
          (merge_headers dflt given)).

Lemma call_world verb self resource data headers w c dflt given u :
  ready w self c dflt headers given ->
  full_url c resource = Return u ->
  snd (call verb self resource data headers w) =
  mkWorld (<[fresh (dom (heap w)) :=
               ObjDict (snd (transport (sent w)
                               (wire_of verb u data dflt given)))]>
             (heap w))
          (environ w) (sent w ++ [wire_of verb u data dflt given]).
Proof.
  intros Hready Hurl. rewrite call_request.
  apply (request_world _ _ _ _ _ _ _ _ _ _ _ _ Hready Hurl).
Qed.

Lemma call_responds verb self resource data headers w c dflt given u
    r after :
  ready w self c dflt headers given ->
  full_url c resource = Return u ->
  transport (sent w) (wire_of verb u data dflt given)
  = (Responds r, after) ->
  exists w',
    heap w' !! self = Some (ObjApiClient c)
    /\ fst (call verb self resource data headers w) =
       fst (ApiClient__check_and_return_response self r w').
Proof.
  intros Hready Hurl Ht. rewrite call_request.
  apply (request_responds _ _ _ _ _ _ _ _ _ _ _ _ _ _ Hready Hurl Ht).
Qed.

(** A call leaves the world as it was, or adds one dict to the heap
    and one call to the wire. *)
Lemma request_world_cases self method resource data headers w :
  snd (request self method resource data headers w) = w
  \/ exists d wire,
       snd (request self method resource data headers w) =
       mkWorld (<[fresh (dom (heap w)) := ObjDict d]> (heap w))
               (environ w) (sent w ++ [wire]).
Proof.
  destruct (heap w !! self) as [[d0 | c] |] eqn:Hself.
  1, 3: left; unfold ApiClient__request; unfold_monad;
    rewrite Hself; reflexivity.
  destruct (full_url c resource) as [u | e] eqn:Hurl.
  2: { left. unfold ApiClient__request. unfold_monad.
       rewrite Hself. fold full_url. rewrite Hurl. reflexivity. }
  destruct (heap w !! ApiClient.headers c) as [[dflt | c'] |] eqn:Hd.
  2, 3: left; unfold ApiClient__request; unfold_monad;
    rewrite Hself; fold full_url; rewrite Hurl;
    destruct headers as [h|]; [destruct (heap w !! h) as [[|]|]|];
    rewrite ?Hd; reflexivity.
  destruct headers as [h|].
  - destruct (heap w !! h) as [[given | c'] |] eqn:Hh.
    2, 3: left; unfold ApiClient__request; unfold_monad;
      rewrite Hself; fold full_url; rewrite Hurl, Hh; reflexivity.
    right. eexists _, _.
    apply (request_world _ _ self method resource data (Some h) w c dflt
             given u); [repeat split; assumption | exact Hurl].
  - right. eexists _, _.
    apply (request_world _ _ self method resource data None w c dflt
             ∅ u); [repeat split; assumption | exact Hurl].
Qed.

(** No call touches an object that exists. *)
Lemma call_keeps_objects verb self resource data headers w l o :
  heap w !! l = Some o ->
  heap (snd (call verb self resource data headers w)) !! l = Some o.
Proof.
  intros Hl. rewrite call_request.
  destruct (request_world_cases self (verb_method verb) resource
              (verb_data verb data) headers w) as [-> | (d & wire & ->)];
    [exact Hl|].
  simpl. rewrite lookup_insert_ne; [exact Hl|].
  eapply fresh_not_used, Hl.
Qed.

Lemma call_keeps_environ verb self resource data headers w :
  environ (snd (call verb self resource data headers w)) = environ w.
Proof.
  rewrite call_request.
  now destruct (request_world_cases self (verb_method verb) resource
                  (verb_data verb data) headers w)
    as [-> | (d & wire & ->)].
Qed.

Lemma run_keeps_objects self calls w l o :
  heap w !! l = Some o -> heap (run self calls w) !! l = Some o.
Proof.
  revert w. induction calls as [|[[[verb resource] data] headers] rest IH];
    intros w Hl; [exact Hl|].
  simpl. apply IH. now apply call_keeps_objects.
Qed.

Lemma run_keeps_environ self calls w :
  environ (run self calls w) = environ w.
Proof.
  revert w. induction calls as [|[[[verb resource] data] headers] rest IH];
    intros w; [reflexivity|].
  simpl. rewrite IH. apply call_keeps_environ.
Qed.

Lemma codeless_call verb self resource data headers :
  codeless (call verb self resource data headers).
Proof.
  rewrite call_request. unfold ApiClient__request.
  apply codeless_bind; [apply codeless_get_self | intros c].
  apply codeless_bind;
    [apply codeless_lift, codeless_urljoin | intros u].
  apply codeless_bind.
  { destruct headers; [apply codeless_read_dict | apply codeless_ret]. }
  intros given. apply codeless_bind; [apply codeless_read_dict|].
  intros dflt. apply codeless_bind; [apply codeless_alloc | intros l].
  apply codeless_try.
  - apply codeless_bind; [|intros r; apply codeless_check].
    intros w. unfold requests_request.
    destruct (transport _ _) as [[r | cls detail] after]; exact I.
  - intros e He. destruct e; try now apply codeless_raise.
    unfold request_handler.
    destruct (Requests.isinstance cls ConnectionError);
      [apply codeless_raise_ApiException|].
    destruct (Requests.isinstance cls Timeout);
      [apply codeless_raise_ApiException|].
    destruct (Requests.isinstance cls RequestException);
      [apply codeless_raise_ApiException | now apply codeless_raise].
Qed.

(** *** Response validation *)

(** C1 (amended). With raise-on-error enabled, a response whose
    status lies in 400..599 makes the verb call raise [ApiException]
    with a message that starts with [Error HTTP: ] (the body being
    undecodable or a JSON object). With raise-on-error disabled, with
    status 200, or with any status outside 400..599 (201, 204 and 301
    among them), the verb call returns the response as it came. *)
Theorem status_policy verb self resource data headers w c dflt given u
    r after :
  ready w self c dflt headers given ->
  full_url c resource = Return u ->
  transport (sent w) (wire_of verb u data dflt given)
  = (Responds r, after) ->
  (ApiClient.raise_for_status c = true ->
   (400 <= Response.status_code r < 600)%Z ->
   (forall v, Response.json r = Response.Decoded v -> exists d, v = PDict d) ->
   exists m,
     fst (call verb self resource data headers w)
     = Raise (ExcApiException
                (mkApiException ("Error HTTP: " +:+ m) PNone PNone)))
  /\ (ApiClient.raise_for_status c = false
      \/ Response.status_code r = 200%Z
      \/ ~ (400 <= Response.status_code r < 600)%Z ->
      fst (call verb self resource data headers w) = Return r).
Proof.
  intros Hready Hurl Ht.
  destruct (call_responds _ _ _ _ _ _ _ _ _ _ _ _ Hready Hurl Ht)
    as (w' & Hself & ->).
  split.
  - intros Hflag Hstatus Hbody.
    destruct (Response.json r) as [v | detail] eqn:Hjson.
    + destruct (Hbody v eq_refl) as [d ->].
      rewrite (check_object self c r w' Hself Hflag Hstatus d Hjson).
      eexists. reflexivity.
    + rewrite (check_not_json self c r w' Hself Hflag Hstatus detail Hjson).
      eexists. reflexivity.
  - intros Hcase. rewrite (check_returns self c r w' Hself); [reflexivity|].
    destruct Hcase as [H | [H | H]]; [now left | now right; left|].
    right; right.
    destruct (Response.raise_for_status r) eqn:E; [|reflexivity].
    exfalso. apply H, raise_for_status_range. congruence.
Qed.

(** C3 (amended). For a response with status in 400..599 and
    raise-on-error enabled: when the body decodes to a JSON object, the
    message is its truthy [message] entry, else its truthy [exception]
    entry, else [Error desconocido.]; when the body does not decode,
    the message is [Error al decodificar los datos en JSON: ] followed
    by the raw text; the call raises [ApiException] with
    [Error HTTP: ] followed by that message. *)
Theorem http_error_message verb self resource data headers w c dflt given
    u r after :
  ready w self c dflt headers given ->
  full_url c resource = Return u ->
  transport (sent w) (wire_of verb u data dflt given)
  = (Responds r, after) ->
  ApiClient.raise_for_status c = true ->
  (400 <= Response.status_code r < 600)%Z ->
  let raised m :=
    fst (call verb self resource data headers w)
    = Raise (ExcApiException
               (mkApiException ("Error HTTP: " +:+ m) PNone PNone)) in
  (forall d, Response.json r = Response.Decoded (PDict d) ->
     let by_message := Py.get d "message" (PStr "") in
     let by_exception := Py.get d "exception" (PStr "") in
     (Py.truthy by_message = true -> raised (Py.str by_message))
     /\ (Py.truthy by_message = false -> Py.truthy by_exception = true ->
         raised (Py.str by_exception))
     /\ (Py.truthy by_message = false -> Py.truthy by_exception = false ->
         raised "Error desconocido."))
  /\ (forall detail, Response.json r = Response.NotJson detail ->
      raised ("Error al decodificar los datos en JSON: "
              +:+ Response.text r)).
Proof.
  intros Hready Hurl Ht Hflag Hstatus raised. subst raised.
  destruct (call_responds _ _ _ _ _ _ _ _ _ _ _ _ Hready Hurl Ht)
    as (w' & Hself & ->).
  split.
  - intros d Hjson by_message by_exception.
    rewrite (check_object self c r w' Hself Hflag Hstatus d Hjson).
    fold by_message by_exception. unfold Py.or.
    repeat split.
    + intros ->. reflexivity.
    + intros -> ->. reflexivity.
    + intros -> ->. reflexivity.
  - intros detail Hjson.
    rewrite (check_not_json self c r w' Hself Hflag Hstatus detail Hjson).
    reflexivity.
Qed.

(** *** Transport failures *)

(** C4 (amended). When the Transport raises, the verb call raises
    [ApiException]: with [Error de conexion: ] (accented) and the
    detail for a connection-level failure, a connect timeout
    included; with [Error de timeout: ] and the detail for any other
    timeout; with [Error en la solicitud: ] and the detail for every
    other failure. The Transport is called once. *)
Theorem transport_failure_message verb self resource data headers w c dflt
    given u cls detail after :
  ready w self c dflt headers given ->
  full_url c resource = Return u ->
  transport (sent w) (wire_of verb u data dflt given)
  = (Fails cls detail, after) ->
  let raised prefix :=
    fst (call verb self resource data headers w)
    = Raise (ExcApiException
               (mkApiException (prefix +:+ detail) PNone PNone)) in
  (In cls [ConnectionError; ProxyError; SSLError; ConnectTimeout] ->
   raised ("Error de " +:+ conexion +:+ ": "))
  /\ (In cls [Timeout; ReadTimeout] -> raised "Error de timeout: ")
  /\ (~ In cls [ConnectionError; ProxyError; SSLError; ConnectTimeout;
                Timeout; ReadTimeout] ->
      raised "Error en la solicitud: ")
  /\ sent (snd (call verb self resource data headers w))
     = sent w ++ [wire_of verb u data dflt given].
Proof.
  intros Hready Hurl Ht raised. subst raised.
  rewrite (call_world _ _ _ _ _ _ _ _ _ _ Hready Hurl).
  rewrite call_request,
    (request_run _ _ _ _ _ _ _ _ _ _ _ _ Hready Hurl), Ht.
  cbn [fst snd]. rewrite request_handler_requests. cbn [fst sent].
  repeat split.
  - intros Hin. simpl in Hin.
    destruct Hin as [<- | [<- | [<- | [<- | []]]]]; reflexivity.
  - intros Hin. simpl in Hin.
    destruct Hin as [<- | [<- | []]]; reflexivity.
  - intros Hnot. destruct cls; try reflexivity; exfalso; apply Hnot;
      simpl; tauto.
Qed.

(** *** What is sent *)

(** C2 (amended). For a base URL with scheme http or https, a plain
    host, plain path segments and at most one trailing slash, and for
    a version and a resource such that [api/] + version + resource is
    a path of plain segments, the URL sent to the Transport is the
    base URL without its trailing slash, one slash, then [api/] +
    version + resource. *)
Theorem request_url_plain verb self resource data headers w c dflt given
    sch n bsegs trailing :
  ready w self c dflt headers given ->
  ApiClient.url c = base_url sch n bsegs trailing ->
  sch = "http" \/ sch = "https" ->
  is_plain_netloc n = true ->
  forallb is_plain_segment bsegs = true ->
  is_plain_path ("api/" +:+ ApiClient.version c +:+ resource) = true ->
  exists wire,
    sent (snd (call verb self resource data headers w)) = sent w ++ [wire]
    /\ sent_url wire
       = spec_full_url (ApiClient.url c) (ApiClient.version c) resource
    /\ sent_url wire
       = sch +:+ "://" +:+ n +:+ slashed bsegs +:+ "/api/"
         +:+ ApiClient.version c +:+ resource.
Proof.
  intros Hready Hbase Hsch Hn Hb Hp.
  pose proof (full_url_plain check_bracketed_netloc c resource _ _ _ _
                Hbase Hsch Hn Hb Hp) as Hurl.
  rewrite (call_world _ _ _ _ _ _ _ _ _ _ Hready Hurl).
  eexists. split; [reflexivity|]. split; [reflexivity|].
  cbn [sent_url]. unfold spec_full_url.
  rewrite Hbase, (drop_trailing_slash_base _ _ _ _ Hn Hb).
  now rewrite !StrFacts.app_assoc.
Qed.

(** C6 (amended). For a post or put call, the body handed to the
    Transport is the JSON serialization of [data] when [data] is
    truthy and not a string; a string goes through unchanged; an
    absent [data] sends no body; a falsy value that is not a string
    (an empty dict or list, zero, [False]) is handed over as it is. *)
Theorem body_sent verb self resource data headers w c dflt given u :
  verb = POST \/ verb = PUT ->
  ready w self c dflt headers given ->
  full_url c resource = Return u ->
  exists wire,
    sent (snd (call verb self resource data headers w)) = sent w ++ [wire]
    /\ (Py.truthy data = true -> Py.is_str data = false ->
        sent_data wire = PStr (Py.json_dumps data))
    /\ (forall s, data = PStr s -> sent_data wire = PStr s)
    /\ (data = PNone -> sent_data wire = PNone)
    /\ (Py.truthy data = false -> sent_data wire = data).
Proof.
  intros Hverb Hready Hurl.
  rewrite (call_world _ _ _ _ _ _ _ _ _ _ Hready Hurl).
  eexists. split; [reflexivity|]. cbn [sent_data].
  assert (Hdata : verb_data verb data = data)
    by (destruct Hverb as [-> | ->]; reflexivity).
  rewrite Hdata. unfold encode_data. repeat split.
  - intros -> ->. reflexivity.
  - intros s ->. simpl. now rewrite andb_false_r.
  - intros ->. reflexivity.
  - intros ->. reflexivity.
Qed.

(** C7. The headers handed to the Transport are the default headers
    overridden or extended by the caller's: where the caller supplies
    a key, exactly as written, the caller's value is sent; every
    default header whose key the caller does not supply is sent with
    its default value, and nothing else is sent. *)
Theorem headers_sent verb self resource data headers w c dflt given u :
  ready w self c dflt headers given ->
  full_url c resource = Return u ->
  exists wire,
    sent (snd (call verb self resource data headers w)) = sent w ++ [wire]
    /\ (forall k v, given !! k = Some v -> sent_headers wire !! k = Some v)
    /\ (forall k, given !! k = None -> sent_headers wire !! k = dflt !! k).
Proof.
  intros Hready Hurl.
  rewrite (call_world _ _ _ _ _ _ _ _ _ _ Hready Hurl).
  eexists. split; [reflexivity|]. cbn [sent_headers].
  unfold merge_headers. split.
  - intros k v Hk. now apply lookup_union_Some_l.
  - intros k Hk. now apply lookup_union_r.
Qed.

(** *** The client object *)

(** C9. After a successful construction the heap holds the client
    and the dict of its default headers; whatever verbs are then
    called, with whatever outcome, and whatever the Transport does to
    the dict it is handed, the client object and the content of its
    default headers stay as construction left them, and so does every
    other object that existed: each call merges into a new dict. *)
Theorem configuration_fixed token url version flag w0 self w calls :
  ApiClient__init__ token url version flag w0 = (Return self, w) ->
  exists c,
    heap w !! self = Some (ObjApiClient c)
    /\ heap w !! ApiClient.headers c
       = Some (ObjDict (default_headers (ApiClient.token c)))
    /\ ApiClient.raise_for_status c = flag
    /\ heap (run self calls w) !! self = Some (ObjApiClient c)
    /\ heap (run self calls w) !! ApiClient.headers c
       = Some (ObjDict (default_headers (ApiClient.token c)))
    /\ (forall l o, heap w !! l = Some o ->
        heap (run self calls w) !! l = Some o)
    /\ environ (run self calls w) = environ w.
Proof.
  intros Hinit.
  destruct (init_returns _ _ _ _ _ _ _ Hinit)
    as (c & Hself & Hheaders & Hflag & _).
  exists c. repeat split; try assumption.
  - now apply run_keeps_objects.
  - now apply run_keeps_objects.
  - intros l o. apply run_keeps_objects.
  - apply run_keeps_environ.
Qed.

(** C10. An [ApiException] raised by a verb call or by construction
    has neither code nor params, and its string rendering is
    [[BHExpress] ] followed by the message. *)
Theorem raised_ApiException_is_codeless e w w' :
  (exists verb self resource data headers,
     call verb self resource data headers w
     = (Raise (ExcApiException e), w'))
  \/ (exists token url version flag,
        ApiClient__init__ token url version flag w
        = (Raise (ExcApiException e), w')) ->
  code e = PNone /\ params e = PNone
  /\ ApiException__str__ e = "[BHExpress] " +:+ message e.
Proof.
  intros H.
  assert (Hc : code e = PNone /\ params e = PNone).
  { destruct H as [(verb & self & resource & data & headers & H)
                  | (token & url & version & flag & H)].
    - pose proof (codeless_call verb self resource data headers w) as Hc.
      now rewrite H in Hc.
    - pose proof (codeless_init token url version flag w) as Hc.
      now rewrite H in Hc. }
  destruct Hc as [Hcode Hparams]. repeat split; try assumption.
  unfold ApiException__str__. now rewrite Hcode.
Qed.

End Claims.

(** ** Worked examples *)

Lemma world1_ready :
  ready world1 2%positive client1 (default_headers "secret") None ∅.
Proof. repeat split; vm_compute; reflexivity. Qed.

Lemma world2_ready :
  ready world2 2%positive client1 (default_headers "secret")
        (Some 3%positive) caller_headers.
Proof. repeat split; vm_compute; reflexivity. Qed.

Lemma client1_dte :
  full_url accept_brackets client1 "/dte"
  = Return "https://bhexpress.cl/api/v1/dte".
Proof. vm_compute. reflexivity. Qed.

(** The example of the specification: base URL [https://bhexpress.cl],
    version [v1], resource [/dte]. *)
Example dte_url_sent :
  sent_url <$> sent (snd (get accept_brackets
                            (answering (response 200 "{}"
                                          (Response.Decoded (PDict []))))
                            2%positive "/dte" None world1))
  = ["https://bhexpress.cl/api/v1/dte"].
Proof. vm_compute. reflexivity. Qed.

(** A base URL given with its trailing slash joins the same way. *)
Example dte_url_trailing_slash :
  full_url accept_brackets
    (ApiClient.mk "secret" "https://bhexpress.cl/" 1 "v1" true) "/dte"
  = Return "https://bhexpress.cl/api/v1/dte".
Proof. vm_compute. reflexivity. Qed.

(** A 404 comes back untouched when raise-on-error is off. *)
Example not_found_returned_when_disabled :
  let r := response 404 "{}"
             (Response.Decoded (PDict [("message", PStr "not found")])) in
  let w := snd (ApiClient__init__ None None None false world0) in
  fst (get accept_brackets (answering r) 2%positive "/dte" None w) = Return r.
Proof. vm_compute. reflexivity. Qed.

(** A base URL with an unbalanced bracket makes [urljoin] raise
    [ValueError], which no [except] clause of [__request] covers. *)
Example bad_base_url_raises_ValueError :
  let w := snd (ApiClient__init__ None (Some "http://[") None true world0) in
  fst (get accept_brackets (answering (response 200 "" (Response.NotJson "")))
         2%positive "/dte" None w)
  = Raise (ExcValueError "Invalid IPv6 URL").
Proof. vm_compute. reflexivity. Qed.

(** A token of blanks only passes the emptiness test of
    [__validate_token] and is stored empty. *)
Lemma whitespace_token_accepted t w :
  Str.truthy t = true -> Str.py_strip t = "" ->
  ApiClient__validate_token (Some t) w = (Return "", w).
Proof.
  intros Ht Hs. unfold ApiClient__validate_token, getenv, mbind, M_bind,
    mret, M_ret. simpl. rewrite Ht. simpl. now rewrite Ht, Hs.
Qed.

(** X2. For a non-empty token [T], the default [Authorization] header
    is [Token ] followed by [T] stripped. *)
Lemma authorization_header T url version flag w0 self w :
  Str.truthy T = true ->
  ApiClient__init__ (Some T) url version flag w0 = (Return self, w) ->
  exists c d,
    heap w !! self = Some (ObjApiClient c)
    /\ ApiClient.token c = Str.py_strip T
    /\ heap w !! ApiClient.headers c = Some (ObjDict d)
    /\ d !! "Authorization" = Some ("Token " +:+ Str.py_strip T).
Proof.
  intros HT Hinit.
  destruct (init_returns _ _ _ _ _ _ _ Hinit)
    as (c & Hself & Hheaders & _ & Htoken & _).
  destruct (validate_token_returns _ _ _ _ Htoken)
    as (_ & chosen & _ & Hstrip & Hgiven & _).
  specialize (Hgiven HT). injection Hgiven as <-.
  exists c, (default_headers (ApiClient.token c)).
  repeat split; try assumption.
  rewrite Hstrip. unfold default_headers. apply lookup_insert_eq.
Qed.

(** Without a token and without the environment variable, construction
    raises the configuration error. *)
Example no_token_raises :
  fst (ApiClient__init__ None None None true (mkWorld ∅ ∅ []))
  = Raise (ExcApiException
             (mkApiException
                "Se debe configurar la variable de entorno: BHEXPRESS_API_TOKEN."
                PNone PNone)).
Proof. vm_compute. reflexivity. Qed.

(** *** C1 *)

Definition r201 : Response.t := response 201 "" (Response.NotJson "no body").
Definition r204 : Response.t := response 204 "" (Response.NotJson "no body").

(** C1, counterexample. A client built with raise-on-error enabled
    returns a 201 and a 204 to the caller; it does not raise. *)
Lemma created_is_returned_counterexample :
  ApiClient.raise_for_status client1 = true
  /\ fst (post accept_brackets (answering r201) 2%positive "/dte"
            (PDict [("folio", PInt 1)]) None world1) = Return r201
  /\ fst (delete accept_brackets (answering r204) 2%positive "/dte/1"
            None world1) = Return r204.
Proof. repeat split; vm_compute; reflexivity. Qed.

Lemma status_policy_witness :
  fst (call accept_brackets (answering r201) GET 2%positive "/dte" PNone None
         world1) = Return r201.
Proof.
  refine (proj2 (status_policy accept_brackets (answering r201) GET 2%positive
                   "/dte" PNone None world1 client1
                   (default_headers "secret") ∅
                   "https://bhexpress.cl/api/v1/dte" r201 _ _ _ _) _).
  - repeat split; vm_compute; reflexivity.
  - vm_compute. reflexivity.
  - reflexivity.
  - right. right. simpl. lia.
Defined.

(** *** C2 *)

(** C2, counterexample. With base URL [https://bhexpress.cl], version
    [v1] and resource [//dte], the join drops the empty segment: the
    URL is not the base URL, one slash, then [api/] + version +
    resource. *)
Lemma double_slash_url_counterexample :
  full_url accept_brackets client1 "//dte"
  = Return "https://bhexpress.cl/api/v1/dte"
  /\ spec_full_url "https://bhexpress.cl" "v1" "//dte"
     = "https://bhexpress.cl/api/v1//dte"
  /\ full_url accept_brackets client1 "//dte"
     <> Return (spec_full_url (ApiClient.url client1)
                  (ApiClient.version client1) "//dte").
Proof.
  split; [vm_compute; reflexivity|]. split; [vm_compute; reflexivity|].
  vm_compute. intros H. discriminate H.
Qed.

Lemma request_url_plain_witness :
  exists wire,
    sent (snd (call accept_brackets (answering r201) PUT 2%positive
                 "/dte/33/" PNone None world1)) = sent world1 ++ [wire]
    /\ sent_url wire
       = spec_full_url "https://bhexpress.cl" "v1" "/dte/33/"
    /\ sent_url wire = "https://bhexpress.cl/api/v1/dte/33/".
Proof.
  apply (request_url_plain accept_brackets (answering r201) PUT 2%positive
           "/dte/33/" PNone None world1 client1 (default_headers "secret") ∅
           "https" "bhexpress.cl" [] false).
  - repeat split; vm_compute; reflexivity.
  - reflexivity.
  - right. reflexivity.
  - reflexivity.
  - reflexivity.
  - reflexivity.
Defined.

(** *** C3 *)

Definition r404 : Response.t :=
  response 404 "not found"
    (Response.Decoded (PDict [("message", PStr "not found")])).

(** C3, counterexample. The 404 with body [message: not found] raises
    [ApiException] with the message [Error HTTP: not found], which is
    not [HTTP Error: not found]. *)
Lemma http_error_text_counterexample :
  fst (get accept_brackets (answering r404) 2%positive "/dte" None world1)
  = Raise (ExcApiException
             (mkApiException "Error HTTP: not found" PNone PNone))
  /\ fst (get accept_brackets (answering r404) 2%positive "/dte" None world1)
     <> Raise (ExcApiException
                 (mkApiException "HTTP Error: not found" PNone PNone)).
Proof.
  split; [vm_compute; reflexivity|].
  vm_compute. intros H. discriminate H.
Qed.

Lemma http_error_message_witness :
  fst (call accept_brackets (answering r404) GET 2%positive "/dte" PNone None
         world1)
  = Raise (ExcApiException
             (mkApiException ("Error HTTP: " +:+ "not found") PNone PNone)).
Proof.
  refine (proj1 (proj1 (http_error_message accept_brackets (answering r404)
                          GET 2%positive "/dte" PNone None world1 client1
                          (default_headers "secret") ∅
                          "https://bhexpress.cl/api/v1/dte" r404 _
                          _ _ _ _ _)
                   [("message", PStr "not found")] eq_refl) eq_refl).
  - repeat split; vm_compute; reflexivity.
  - vm_compute. reflexivity.
  - reflexivity.
  - reflexivity.
  - simpl. lia.
Defined.

(** *** C4 *)

(** C4, counterexample. A connection failure with detail [refused]
    raises [ApiException] with [Error de conexion: refused] (accented),
    not [Connection error: refused]; a connect timeout gets the same
    prefix, not the one of a timeout. *)
Lemma connection_error_text_counterexample :
  fst (get accept_brackets (failing ConnectionError "refused") 2%positive
         "/dte" None world1)
  = Raise (ExcApiException
             (mkApiException ("Error de " +:+ conexion +:+ ": refused")
                PNone PNone))
  /\ fst (get accept_brackets (failing ConnectionError "refused") 2%positive
            "/dte" None world1)
     <> Raise (ExcApiException
                 (mkApiException "Connection error: refused" PNone PNone))
  /\ fst (get accept_brackets (failing ConnectTimeout "slow") 2%positive
            "/dte" None world1)
     = Raise (ExcApiException
                (mkApiException ("Error de " +:+ conexion +:+ ": slow")
                   PNone PNone)).
Proof.
  split; [vm_compute; reflexivity|]. split; [|vm_compute; reflexivity].
  vm_compute. intros H. discriminate H.
Qed.

Lemma transport_failure_message_witness :
  fst (call accept_brackets (failing ReadTimeout "slow") POST 2%positive
         "/dte" (PStr "{}") (Some 3%positive) world2)
  = Raise (ExcApiException
             (mkApiException ("Error de timeout: " +:+ "slow") PNone PNone)).
Proof.
  refine (proj1 (proj2 (transport_failure_message accept_brackets
                          (failing ReadTimeout "slow") POST 2%positive "/dte"
                          (PStr "{}") (Some 3%positive) world2 client1
                          (default_headers "secret") caller_headers
                          "https://bhexpress.cl/api/v1/dte" ReadTimeout
                          "slow" ∅ _ _ _)) _).
  - repeat split; vm_compute; reflexivity.
  - vm_compute. reflexivity.
  - reflexivity.
  - simpl. tauto.
Defined.

(** *** C5 *)

(** C5, the failing input. Constructing with a token of three blanks
    succeeds although the environment holds a usable token: the stored
    token is empty and the default [Authorization] header is [Token ]
    with nothing after it. *)
Theorem blank_token_is_stored :
  environ world0 !! "BHEXPRESS_API_TOKEN" = Some "secret"
  /\ exists self w c d,
       ApiClient__init__ (Some "   ") None None true world0 = (Return self, w)
       /\ heap w !! self = Some (ObjApiClient c)
       /\ ApiClient.token c = ""
       /\ heap w !! ApiClient.headers c = Some (ObjDict d)
       /\ d !! "Authorization" = Some "Token ".
Proof.
  split; [vm_compute; reflexivity|].
  exists 2%positive,
    (snd (ApiClient__init__ (Some "   ") None None true world0)),
    (ApiClient.mk "" "https://bhexpress.cl" 1 "v1" true),
    (default_headers "").
  repeat split; vm_compute; reflexivity.
Qed.

(** *** C6 *)

(** C6, counterexample. Posting the empty dict hands the dict itself to
    the Transport, not its JSON serialization. *)
Lemma empty_dict_body_counterexample :
  sent_data <$> sent (snd (post accept_brackets (answering r201) 2%positive
                             "/dte" (PDict []) None world1))
  = [PDict []]
  /\ PDict [] <> PStr (Py.json_dumps (PDict [])).
Proof. split; [vm_compute; reflexivity | discriminate]. Qed.

Lemma body_sent_witness :
  exists wire,
    sent (snd (call accept_brackets (answering r201) POST 2%positive "/dte"
                 (PDict [("folio", PInt 7); ("tags", PList [PStr "a"])])
                 None world1)) = sent world1 ++ [wire]
    /\ sent_data wire
       = PStr (Py.json_dumps
                 (PDict [("folio", PInt 7); ("tags", PList [PStr "a"])])).
Proof.
  destruct (body_sent accept_brackets (answering r201) POST 2%positive "/dte"
              (PDict [("folio", PInt 7); ("tags", PList [PStr "a"])])
              None world1 client1 (default_headers "secret") ∅
              "https://bhexpress.cl/api/v1/dte")
    as (wire & Hsent & Hjson & _).
  - left. reflexivity.
  - repeat split; vm_compute; reflexivity.
  - vm_compute. reflexivity.
  - exists wire. split; [exact Hsent | apply Hjson; reflexivity].
Defined.

(** *** C7 *)

Lemma headers_sent_witness :
  exists wire,
    sent (snd (call accept_brackets (answering r201) GET 2%positive "/dte"
                 PNone (Some 3%positive) world2)) = sent world2 ++ [wire]
    /\ sent_headers wire !! "Accept" = Some "text/plain"
    /\ sent_headers wire !! "X-Trace" = Some "1"
    /\ sent_headers wire !! "Authorization" = Some "Token secret"
    /\ sent_headers wire !! "Content-Type" = Some "application/json"
    /\ sent_headers wire !! "accept" = None.
Proof.
  destruct (headers_sent accept_brackets (answering r201) GET 2%positive
              "/dte" PNone (Some 3%positive) world2 client1
              (default_headers "secret") caller_headers
              "https://bhexpress.cl/api/v1/dte")
    as (wire & Hsent & Hgiven & Hdflt).
  - repeat split; vm_compute; reflexivity.
  - vm_compute. reflexivity.
  - exists wire. split; [exact Hsent|].
    split; [apply Hgiven; vm_compute; reflexivity|].
    split; [apply Hgiven; vm_compute; reflexivity|].
    split; [rewrite Hdflt; vm_compute; reflexivity|].
    split; [rewrite Hdflt; vm_compute; reflexivity|].
    rewrite Hdflt; vm_compute; reflexivity.
Defined.

(** *** C8 *)

(** C8, the failing input. A 404 whose body is the JSON array [[]]
    makes [get] raise [AttributeError], not [ApiException]. *)
Theorem non_object_body_raises_AttributeError :
  fst (get accept_brackets
         (answering (response 404 "[]" (Response.Decoded (PList []))))
         2%positive "/dte" None world1)
  = Raise (ExcAttributeError "'list' object has no attribute 'get'").
Proof. vm_compute. reflexivity. Qed.

(** *** C9 *)

Lemma configuration_fixed_witness :
  exists c,
    heap world1 !! 2%positive = Some (ObjApiClient c)
    /\ heap world1 !! ApiClient.headers c
       = Some (ObjDict (default_headers (ApiClient.token c)))
    /\ ApiClient.raise_for_status c = true
    /\ heap (run accept_brackets (failing ConnectionError "down") 2%positive
               [(POST, "/dte", PDict [("folio", PInt 7)], None);
                (GET, "/dte/7", PNone, None)] world1) !! 2%positive
       = Some (ObjApiClient c)
    /\ heap (run accept_brackets (failing ConnectionError "down") 2%positive
               [(POST, "/dte", PDict [("folio", PInt 7)], None);
                (GET, "/dte/7", PNone, None)] world1) !! ApiClient.headers c
       = Some (ObjDict (default_headers (ApiClient.token c)))
    /\ (forall l o, heap world1 !! l = Some o ->
        heap (run accept_brackets (failing ConnectionError "down") 2%positive
                [(POST, "/dte", PDict [("folio", PInt 7)], None);
                 (GET, "/dte/7", PNone, None)] world1) !! l = Some o)
    /\ environ (run accept_brackets (failing ConnectionError "down")
                  2%positive
                  [(POST, "/dte", PDict [("folio", PInt 7)], None);
                   (GET, "/dte/7", PNone, None)] world1)
       = environ world1.
Proof.
  apply (configuration_fixed accept_brackets (failing ConnectionError "down")
           None None None true world0).
  vm_compute. reflexivity.
Defined.

(** *** C10 *)

Lemma raised_ApiException_is_codeless_witness :
  let e := mkApiException "Error HTTP: not found" PNone PNone in
  code e = PNone /\ params e = PNone
  /\ ApiException__str__ e = "[BHExpress] " +:+ message e.
Proof.
  apply (raised_ApiException_is_codeless accept_brackets (answering r404)
           (mkApiException "Error HTTP: not found" PNone PNone) world1
           (snd (get accept_brackets (answering r404) 2%positive "/dte" None
                   world1))).
  left. exists GET, 2%positive, "/dte", PNone, None.
  vm_compute. reflexivity.
Defined.

(** * Further properties *)

(** ** Construction *)

(** The object a successful construction allocates, field by field. *)
Lemma init_fields token url version flag w0 self w :
  ApiClient__init__ token url version flag w0 = (Return self, w) ->
  exists t u,
    ApiClient__validate_token token w0 = (Return t, w0)
    /\ ApiClient__validate_url url w0 = (Return u, w0)
    /\ heap w !! self
       = Some (ObjApiClient
                 (ApiClient.mk t u (fresh (dom (heap w0)))
                    (if opt_truthy version
                     then default DEFAULT_VERSION version
                     else DEFAULT_VERSION) flag))
    /\ heap w !! fresh (dom (heap w0)) = Some (ObjDict (default_headers t)).
Proof.
  unfold ApiClient__init__. unfold mbind at 1. unfold M_bind.
  destruct (ApiClient__validate_token token w0) as [[t | e] w1] eqn:Ht;
    [|discriminate].
  destruct (validate_token_returns _ _ _ _ Ht) as [-> _].
  unfold mbind at 1. unfold M_bind.
  destruct (validate_url_returns url w0) as [u Hu]. rewrite Hu.
  unfold ApiClient__generate_headers, alloc, mbind, M_bind. simpl.
  intros [= <- <-]. simpl. exists t, u.
  split; [reflexivity|]. split; [reflexivity|].
  set (l1 := fresh (dom (heap w0))).
  set (h1 := <[l1 := ObjDict (default_headers t)]> (heap w0)).
  split; [apply lookup_insert_eq|].
  rewrite lookup_insert_ne; [apply lookup_insert_eq|].
  intros E. apply (is_fresh (dom h1)). rewrite E.
  apply elem_of_dom. unfold h1. rewrite lookup_insert_eq. eauto.
Qed.

(** A construction that raises leaves the world as it was, and raises
    the configuration error. *)
Lemma init_raises token url version flag w e w' :
  ApiClient__init__ token url version flag w = (Raise e, w') ->
  w' = w
  /\ e = ExcApiException (mkApiException token_error PNone PNone)
  /\ opt_truthy token = false
  /\ opt_truthy (environ w !! "BHEXPRESS_API_TOKEN") = false.
Proof.
  unfold ApiClient__init__. unfold mbind at 1. unfold M_bind.
  destruct (ApiClient__validate_token token w) as [[t | e0] w1] eqn:Ht.
  - destruct (validate_token_returns _ _ _ _ Ht) as [-> _].
    unfold mbind at 1. unfold M_bind.
    destruct (validate_url_returns url w) as [u ->].
    unfold ApiClient__generate_headers, alloc, mbind, M_bind. simpl.
    discriminate.
  - intros [= <- <-]. revert Ht.
    unfold ApiClient__validate_token, getenv, mbind, M_bind, mret, M_ret,
      raise_ApiException, raise.
    destruct (opt_truthy token) eqn:Htok.
    + destruct token as [s|]; [|discriminate]. simpl in Htok.
      rewrite Htok. discriminate.
    + destruct (environ w !! "BHEXPRESS_API_TOKEN") as [s|]; simpl.
      * destruct (Str.truthy s); [discriminate|].
        intros [= <- <-]. repeat split.
      * intros [= <- <-]. repeat split.
Qed.

(** X1. Construction succeeds exactly when the given token, or else
    the environment variable, is a non-empty string (before any
    stripping); otherwise it raises [ApiException] with the message
    that names the variable, and nothing else can make it fail: the
    URL and the version are never rejected. *)
Theorem construction_outcome token url version flag w :
  (opt_truthy token = true
   \/ opt_truthy (environ w !! "BHEXPRESS_API_TOKEN") = true ->
   exists self w',
     ApiClient__init__ token url version flag w = (Return self, w'))
  /\ (opt_truthy token = false ->
      opt_truthy (environ w !! "BHEXPRESS_API_TOKEN") = false ->
      ApiClient__init__ token url version flag w
      = (Raise (ExcApiException (mkApiException token_error PNone PNone)),
         w)).
Proof.
  split.
  - intros H.
    destruct (ApiClient__init__ token url version flag w)
      as [[self | e] w'] eqn:E; [eauto|].
    destruct (init_raises _ _ _ _ _ _ _ E) as (_ & _ & H1 & H2).
    destruct H as [H | H]; congruence.
  - intros H1 H2.
    destruct (ApiClient__init__ token url version flag w)
      as [[self | e] w'] eqn:E.
    + destruct (init_fields _ _ _ _ _ _ _ E) as (t & u & Ht & _).
      destruct (validate_token_returns _ _ _ _ Ht)
        as (_ & chosen & Hc & _ & Hgiven & Henv).
      specialize (Henv H1). rewrite Henv in H2. simpl in H2. congruence.
    + destruct (init_raises _ _ _ _ _ _ _ E) as (-> & -> & _).
      reflexivity.
Qed.

(** X3. Without a usable explicit token ([None] or the empty string)
    the token comes from [BHEXPRESS_API_TOKEN]: the stored token is the
    variable stripped and the default [Authorization] header is
    [Token ] followed by it. *)
Theorem environment_token_header token E url version flag w0 self w :
  opt_truthy token = false ->
  environ w0 !! "BHEXPRESS_API_TOKEN" = Some E ->
  ApiClient__init__ token url version flag w0 = (Return self, w) ->
  exists c d,
    heap w !! self = Some (ObjApiClient c)
    /\ ApiClient.token c = Str.py_strip E
    /\ heap w !! ApiClient.headers c = Some (ObjDict d)
    /\ d !! "Authorization" = Some ("Token " +:+ Str.py_strip E).
Proof.
  intros Htok Henv Hinit.
  destruct (init_fields _ _ _ _ _ _ _ Hinit) as (t & u & Ht & _ & Hself & Hd).
  destruct (validate_token_returns _ _ _ _ Ht)
    as (_ & chosen & _ & Hstrip & _ & Hfrom).
  specialize (Hfrom Htok). rewrite Henv in Hfrom. injection Hfrom as <-.
  eexists _, _. split; [exact Hself|]. cbn [ApiClient.token ApiClient.headers].
  split; [exact Hstrip|]. split; [exact Hd|].
  rewrite Hstrip. unfold default_headers. apply lookup_insert_eq.
Qed.

(** X4. The base URL of a client is, stripped: the explicit [url] when
    it is a non-empty string, whatever the environment says; else the
    variable [BHEXPRESS_API_URL] when it is set, even to the empty
    string; else [https://bhexpress.cl]. *)
Theorem url_resolution token url version flag w0 self w :
  ApiClient__init__ token url version flag w0 = (Return self, w) ->
  exists c,
    heap w !! self = Some (ObjApiClient c)
    /\ (forall u, url = Some u -> Str.truthy u = true ->
        ApiClient.url c = Str.py_strip u)
    /\ (opt_truthy url = false ->
        forall e, environ w0 !! "BHEXPRESS_API_URL" = Some e ->
        ApiClient.url c = Str.py_strip e)
    /\ (opt_truthy url = false ->
        environ w0 !! "BHEXPRESS_API_URL" = None ->
        ApiClient.url c = "https://bhexpress.cl").
Proof.
  intros Hinit.
  destruct (init_fields _ _ _ _ _ _ _ Hinit) as (t & u0 & _ & Hu & Hself & _).
  eexists. split; [exact Hself|]. cbn [ApiClient.url].
  revert Hu. unfold ApiClient__validate_url, getenv, mbind, M_bind, mret,
    M_ret. intros Hu. repeat split.
  - intros u -> Htruthy. rewrite Htruthy in Hu. congruence.
  - intros Hfalse e He. destruct url as [s|]; simpl in Hfalse.
    + rewrite Hfalse, He in Hu. simpl in Hu. congruence.
    + rewrite He in Hu. simpl in Hu. congruence.
  - intros Hfalse He. destruct url as [s|]; simpl in Hfalse.
    + rewrite Hfalse, He in Hu. simpl in Hu. injection Hu as <-.
      vm_compute. reflexivity.
    + rewrite He in Hu. simpl in Hu. injection Hu as <-.
      vm_compute. reflexivity.
Qed.

(** X5. The version of a client is the given [version], exactly as
    written (it is not stripped), when it is a non-empty string, and
    [v1] when it is [None] or empty. *)
Theorem version_resolution token url version flag w0 self w :
  ApiClient__init__ token url version flag w0 = (Return self, w) ->
  exists c,
    heap w !! self = Some (ObjApiClient c)
    /\ (forall v, version = Some v -> Str.truthy v = true ->
        ApiClient.version c = v)
    /\ (opt_truthy version = false -> ApiClient.version c = "v1").
Proof.
  intros Hinit.
  destruct (init_fields _ _ _ _ _ _ _ Hinit) as (t & u0 & _ & _ & Hself & _).
  eexists. split; [exact Hself|]. cbn [ApiClient.version]. split.
  - intros v -> Hv. simpl. now rewrite Hv.
  - intros ->. reflexivity.
Qed.

(** ** Stripping *)

Lemma lstrip_head p s :
  match Str.lstrip p s with
  | EmptyString => True
  | String c _ => p c = false
  end.
Proof.
  induction s as [|c s IH]; simpl; [exact I|].
  destruct (p c) eqn:E; [exact IH | exact E].
Qed.

Lemma rstrip_keeps_head p c s :
  p c = false -> exists r, Str.rstrip p (String c s) = String c r.
Proof.
  intros Hc. simpl. destruct (Str.rstrip p s); [rewrite Hc|]; eauto.
Qed.

Lemma rstrip_idempotent p s : Str.rstrip p (Str.rstrip p s) = Str.rstrip p s.
Proof.
  induction s as [|c s IH]; [reflexivity|]. simpl.
  destruct (Str.rstrip p s) as [|d r] eqn:E.
  - destruct (p c) eqn:Hc; [reflexivity|]. simpl. now rewrite Hc.
  - change (Str.rstrip p (String c (String d r)))
      with (match Str.rstrip p (String d r) with
            | EmptyString => if p c then EmptyString else String c EmptyString
            | String x y => String c (String x y)
            end).
    now rewrite IH.
Qed.

Lemma py_strip_idempotent s : Str.py_strip (Str.py_strip s) = Str.py_strip s.
Proof.
  unfold Str.py_strip, Str.strip.
  pose proof (lstrip_head Str.is_space s) as Hhead.
  destruct (Str.lstrip Str.is_space s) as [|c t] eqn:E; [reflexivity|].
  destruct (rstrip_keeps_head Str.is_space c t Hhead) as [r Hr].
  rewrite Hr. cbn [Str.lstrip]. rewrite Hhead, <- Hr.
  apply rstrip_idempotent.
Qed.

(** The text left by [strip()] does not start with white space. *)
Lemma py_strip_head s :
  match Str.py_strip s with
  | EmptyString => True
  | String c _ => Str.is_space c = false
  end.
Proof.
  unfold Str.py_strip, Str.strip.
  pose proof (lstrip_head Str.is_space s) as Hhead.
  destruct (Str.lstrip Str.is_space s) as [|c t] eqn:E; [exact I|].
  destruct (rstrip_keeps_head Str.is_space c t Hhead) as [r ->].
  exact Hhead.
Qed.

(** The text left by [rstrip] does not end with a stripped character. *)
Lemma rstrip_last p s c r :
  Str.rstrip p s = r +:+ String c "" -> p c = false.
Proof.
  revert r. induction s as [|d s IH]; intros r.
  - simpl. destruct r; discriminate.
  - simpl. destruct (Str.rstrip p s) as [|x y] eqn:E.
    + destruct (p d) eqn:Hd.
      * destruct r; discriminate.
      * destruct r as [|r0 r]; simpl.
        -- intros [= <-]. exact Hd.
        -- intros [= _ H]. destruct r; discriminate.
    + destruct r as [|r0 r]; simpl; [discriminate|].
      intros [= _ H]. apply (IH r). exact H.
Qed.

(** X6. After a successful construction the stored token and the stored
    base URL are stripped: stripping them again changes nothing, and
    neither starts nor ends with a white-space character. *)
Theorem stored_configuration_is_stripped token url version flag w0 self w :
  ApiClient__init__ token url version flag w0 = (Return self, w) ->
  exists c,
    heap w !! self = Some (ObjApiClient c)
    /\ Str.py_strip (ApiClient.token c) = ApiClient.token c
    /\ Str.py_strip (ApiClient.url c) = ApiClient.url c
    /\ (forall x rest, ApiClient.token c = String x rest \/
                       ApiClient.url c = String x rest ->
        Str.is_space x = false)
    /\ (forall x front, ApiClient.token c = front +:+ String x "" \/
                        ApiClient.url c = front +:+ String x "" ->
        Str.is_space x = false).
Proof.
  intros Hinit.
  destruct (init_fields _ _ _ _ _ _ _ Hinit) as (t & u & Ht & Hu & Hself & _).
  assert (Hts : exists s, t = Str.py_strip s).
  { destruct (validate_token_returns _ _ _ _ Ht) as (_ & s & _ & -> & _).
    eauto. }
  assert (Hus : exists s, u = Str.py_strip s).
  { revert Hu. unfold ApiClient__validate_url, getenv, mbind, M_bind, mret,
      M_ret. destruct url as [s|]; [destruct (Str.truthy s)|];
      intros [= <-]; eauto. }
  destruct Hts as [ts ->], Hus as [us ->].
  eexists. split; [exact Hself|]. cbn [ApiClient.token ApiClient.url].
  split; [apply py_strip_idempotent|]. split; [apply py_strip_idempotent|].
  split.
  - intros x rest [H | H].
    + pose proof (py_strip_head ts) as Hh. now rewrite H in Hh.
    + pose proof (py_strip_head us) as Hh. now rewrite H in Hh.
  - intros x front [H | H]; eapply rstrip_last; exact H.
Qed.

(** X7. Construction performs no call of the Transport and leaves the
    environment as it is, whether it succeeds or raises. *)
Theorem construction_sends_nothing token url version flag w :
  sent (snd (ApiClient__init__ token url version flag w)) = sent w
  /\ environ (snd (ApiClient__init__ token url version flag w)) = environ w.
Proof.
  destruct (ApiClient__init__ token url version flag w)
    as [[self | e] w'] eqn:E; simpl.
  - destruct (init_returns _ _ _ _ _ _ _ E) as (c & _ & _ & _ & _ & H1 & H2 & _).
    now split.
  - destruct (init_raises _ _ _ _ _ _ _ E) as (-> & _). now split.
Qed.

(** ** The wrapper *)

(** X16. A wrapper is built exactly when its client is: [ApiBase(...)]
    raises the configuration error of the client and leaves the world
    as it was, or holds a reference to a client that is ready for
    calls, with the flag it was given and the default headers of its
    token. *)
Theorem ApiBase_holds_a_client api_token api_url api_version flag w :
  (exists w',
     ApiBase__init__ api_token api_url api_version flag w
     = (Raise (ExcApiException (mkApiException token_error PNone PNone)), w')
     /\ w' = w)
  \/ (exists base w' c,
        ApiBase__init__ api_token api_url api_version flag w
        = (Return base, w')
        /\ ready w' (ApiBase.client base) c
             (default_headers (ApiClient.token c)) None ∅
        /\ ApiClient.raise_for_status c = flag).
Proof.
  unfold ApiBase__init__, mbind, M_bind, mret, M_ret.
  destruct (ApiClient__init__ api_token api_url api_version flag w)
    as [[self | e] w'] eqn:E.
  - right. destruct (init_returns _ _ _ _ _ _ _ E)
      as (c & Hself & Hheaders & Hflag & _).
    exists (ApiBase.mk self), w', c. repeat split; assumption.
  - left. destruct (init_raises _ _ _ _ _ _ _ E) as (-> & -> & _).
    eexists. split; reflexivity.
Qed.

(** ** What a call can raise *)



Section RaisesUrl.

Variable check_bracketed_netloc : string -> option string.
Variable P : PyExc -> Prop.
Hypothesis HP : forall msg, P (ExcValueError msg).




End RaisesUrl.

Section MoreOnVerbs.

Variable check_bracketed_netloc : string -> option string.
Variable transport :
  list Sent -> Sent -> TransportResult * gmap string string.

Abbreviation full_url := (full_url check_bracketed_netloc).
Abbreviation request :=
  (ApiClient__request check_bracketed_netloc transport).
Abbreviation call := (call check_bracketed_netloc transport).
Abbreviation get := (get check_bracketed_netloc transport).
Abbreviation delete := (delete check_bracketed_netloc transport).
Abbreviation post := (post check_bracketed_netloc transport).
Abbreviation put := (put check_bracketed_netloc transport).




(** X9. A verb call reaches the Transport at most once, whatever its
    arguments and its outcome: the calls sent so far are kept, and at
    most one is added after them. *)
Theorem at_most_one_request verb self resource data headers w :
  sent (snd (call verb self resource data headers w)) = sent w
  \/ exists wire,
       sent (snd (call verb self resource data headers w))
       = sent w ++ [wire].
Proof.
  rewrite call_request.
  destruct (request_world_cases check_bracketed_netloc transport self
              (verb_method verb) resource (verb_data verb data) headers w)
    as [-> | (d & wire & ->)]; [now left | right; eauto].
Qed.

(** X8. Each verb sends its own method name for the joined URL:
    [get] sends [GET] and [delete] sends [DELETE], both without a
    body whatever the caller does; [post] sends [POST] and [put] sends
    [PUT]. *)
Theorem verb_methods self resource data headers w c dflt given u :
  ready w self c dflt headers given ->
  full_url c resource = Return u ->
  (exists wire,
     sent (snd (get self resource headers w)) = sent w ++ [wire]
     /\ sent_method wire = "GET" /\ sent_url wire = u
     /\ sent_data wire = PNone)
  /\ (exists wire,
        sent (snd (delete self resource headers w)) = sent w ++ [wire]
        /\ sent_method wire = "DELETE" /\ sent_url wire = u
        /\ sent_data wire = PNone)
  /\ (exists wire,
        sent (snd (post self resource data headers w)) = sent w ++ [wire]
        /\ sent_method wire = "POST" /\ sent_url wire = u)
  /\ (exists wire,
        sent (snd (put self resource data headers w)) = sent w ++ [wire]
        /\ sent_method wire = "PUT" /\ sent_url wire = u).
Proof.
  intros Hready Hurl. unfold get, delete, post, put.
  repeat split.
  all: rewrite (request_world _ _ _ _ _ _ _ _ _ _ _ _ Hready Hurl).
  all: eexists; repeat split; reflexivity.
Qed.

(** X10. The dict a caller passes as [headers] is left as it was, also
    when the Transport rewrites the dict it is handed: that dict is a
    new object, at a location distinct from the caller's dict and from
    the default headers of the client. *)
Theorem caller_headers_untouched verb self resource data h w c dflt given u :
  ready w self c dflt (Some h) given ->
  full_url c resource = Return u ->
  let w' := snd (call verb self resource data (Some h) w) in
  let handed := fresh (dom (heap w)) in
  heap w' !! h = Some (ObjDict given)
  /\ handed <> h /\ handed <> ApiClient.headers c
  /\ heap w !! handed = None
  /\ heap w' !! handed
     = Some (ObjDict
               (snd (transport (sent w)
                       (mkSent (verb_method verb) u
                          (encode_data (verb_data verb data))
                          (merge_headers dflt given))))).
Proof.
  intros Hready Hurl w' handed. subst w' handed.
  pose proof Hready as (Hself & Hdflt & Hgiven).
  assert (Hh : fresh (dom (heap w)) <> h) by (eapply fresh_not_used; eauto).
  rewrite call_request,
    (request_world _ _ _ _ _ _ _ _ _ _ _ _ Hready Hurl).
  cbn [heap]. repeat split.
  - rewrite lookup_insert_ne by exact Hh. exact Hgiven.
  - exact Hh.
  - eapply fresh_not_used; eauto.
  - apply not_elem_of_dom, is_fresh.
  - apply lookup_insert_eq.
Qed.

(** X12. When the caller passes no headers, or an empty dict, the
    headers sent are exactly the four defaults of the client:
    [User-Agent], [Accept], [Content-Type] and [Authorization] with
    [Token ] and the stored token. *)
Theorem default_headers_sent verb self resource data headers w c u :
  ready w self c (default_headers (ApiClient.token c)) headers ∅ ->
  full_url c resource = Return u ->
  exists wire,
    sent (snd (call verb self resource data headers w)) = sent w ++ [wire]
    /\ sent_headers wire !! "User-Agent"
       = Some "BHExpress: Cliente de API en Python."
    /\ sent_headers wire !! "Accept" = Some "application/json"
    /\ sent_headers wire !! "Content-Type" = Some "application/json"
    /\ sent_headers wire !! "Authorization"
       = Some ("Token " +:+ ApiClient.token c)
    /\ forall k,
         k <> "User-Agent" -> k <> "Accept" -> k <> "Content-Type" ->
         k <> "Authorization" -> sent_headers wire !! k = None.
Proof.
  intros Hready Hurl.
  rewrite call_request, (request_world _ _ _ _ _ _ _ _ _ _ _ _ Hready Hurl).
  eexists. split; [reflexivity|]. cbn [sent_headers].
  unfold merge_headers. rewrite (left_id_L ∅ (∪)). unfold default_headers.
  split; [reflexivity|]. split; [reflexivity|]. split; [reflexivity|].
  split; [apply lookup_insert_eq|].
  intros k H1 H2 H3 H4.
  now rewrite !lookup_insert_ne, lookup_empty by congruence.
Qed.

(** X13. What [post] hands to the Transport as body is a string or a
    falsy value, never a truthy value that is not text; and posting the
    body that was sent sends it again unchanged: a body is not encoded
    twice. *)
Theorem body_is_text_or_falsy self resource data headers w c dflt given u :
  ready w self c dflt headers given ->
  full_url c resource = Return u ->
  exists wire,
    sent (snd (post self resource data headers w)) = sent w ++ [wire]
    /\ (Py.is_str (sent_data wire) = true
        \/ Py.truthy (sent_data wire) = false)
    /\ exists again,
         sent (snd (post self resource (sent_data wire) headers w))
         = sent w ++ [again]
         /\ sent_data again = sent_data wire.
Proof.
  intros Hready Hurl. unfold post.
  rewrite (request_world _ _ _ _ _ _ _ _ _ _ _ _ Hready Hurl).
  eexists. split; [reflexivity|]. cbn [sent_data]. split.
  - unfold encode_data.
    destruct (Py.truthy data) eqn:Ht; simpl; [|now right].
    destruct (Py.is_str data) eqn:Hs; simpl; [now left | now left].
  - rewrite (request_world _ _ _ _ _ _ _ _ _ _ _ _ Hready Hurl).
    eexists. split; [reflexivity|]. cbn [sent_data]. unfold encode_data.
    destruct (Py.truthy data && negb (Py.is_str data)) eqn:E.
    + simpl. now rewrite andb_false_r.
    + now rewrite E.
Qed.

End MoreOnVerbs.

(** ** More on the URL of a request *)

Lemma break_at c a b :
  Str.all (fun d => negb (Ascii.eqb d c)) a = true ->
  Str.break c (a +:+ String c b) = Some (a, b).
Proof.
  induction a as [|x a IH]; simpl.
  - intros _. now rewrite Ascii.eqb_refl.
  - intros [Hx Ha]%andb_true_iff. apply negb_true_iff in Hx.
    now rewrite Hx, (IH Ha).
Qed.

Lemma split_at c a b :
  Str.split c (a +:+ String c b) = Str.split c a ++ Str.split c b.
Proof.
  induction a as [|x a IH]; simpl.
  - now rewrite Ascii.eqb_refl.
  - destruct (Ascii.eqb x c); [now rewrite IH|].
    rewrite IH. pose proof (StrFacts.split_not_nil c a) as Hnil.
    destruct (Str.split c a); [contradiction | reflexivity].
Qed.

Lemma slashed_join l : l <> [] -> slashed l = "/" +:+ Str.join "/" l.
Proof.
  induction l as [|s l IH]; [contradiction|]. intros _.
  cbn [slashed]. destruct l as [|s' l'].
  - cbn [slashed Str.join]. now rewrite StrFacts.app_nil_r.
  - rewrite IH by discriminate.
    now rewrite (StrFacts.join_cons "/" s (s' :: l')) by discriminate.
Qed.

Lemma filter_middle_base bsegs trailing segs last :
  forallb is_plain_segment bsegs = true ->
  Url.filter_middle (("" :: bsegs ++ closing trailing) ++ segs ++ [last])
  = "" :: bsegs ++ List.filter Str.truthy segs ++ [last].
Proof.
  intros Hb. unfold Url.filter_middle.
  change (("" :: bsegs ++ closing trailing) ++ segs ++ [last])
    with ("" :: ((bsegs ++ closing trailing) ++ segs ++ [last])).
  destruct ((bsegs ++ closing trailing) ++ segs ++ [last]) as [|y t] eqn:E.
  { exfalso. destruct bsegs, trailing; discriminate. }
  rewrite <- E. f_equal.
  replace ((bsegs ++ closing trailing) ++ segs ++ [last])
    with ((bsegs ++ closing trailing ++ segs) ++ [last])
    by now rewrite <- !List.app_assoc.
  rewrite List.removelast_last, List.last_last.
  rewrite !List.filter_app, (filter_plain_segments _ Hb).
  destruct trailing; simpl; now rewrite <- List.app_assoc.
Qed.

Section MoreUrlFacts.

Variable check_bracketed_netloc : string -> option string.

(** Parsing [api/...] followed by a query. *)
Lemma urlparse_rel_query sch x q :
  sch = "http" \/ sch = "https" ->
  Str.all is_path_char ("api/" +:+ x) = true ->
  Str.all is_query_char q = true ->
  Url.urlparse check_bracketed_netloc ("api/" +:+ x +:+ "?" +:+ q) sch
  = Return (Url.mkParse sch "" ("api/" +:+ x) "" q "").
Proof.
  intros Hsch Hx Hq.
  change (Str.all is_path_char ("api/" +:+ x))
    with (Str.all is_path_char x) in Hx.
  pose proof (path_chars_facts _ Hx) as (Hx1 & Hx2 & Hx3 & Hx4).
  assert (Hq1 : Str.all Url.is_safe_url_byte q = true).
  { eapply StrFacts.all_impl; [|exact Hq].
    now intros c [Hc _]%andb_true_iff. }
  assert (Hq2 : Str.all (fun d => negb (Ascii.eqb d "#")) q = true).
  { eapply StrFacts.all_impl; [|exact Hq].
    now intros c [_ Hc]%andb_true_iff. }
  assert (Hsafe : Str.filter Url.is_safe_url_byte (x +:+ String "?" q)
                  = x +:+ String "?" q).
  { apply StrFacts.filter_all. rewrite StrFacts.all_app, Hx1. exact Hq1. }
  assert (Hhash : Str.break "#" (x +:+ String "?" q) = None).
  { apply StrFacts.break_none. rewrite StrFacts.all_app. simpl.
    rewrite Hq2, andb_true_r. eapply StrFacts.all_impl; [|exact Hx].
    intros c Hc. apply path_char_spec in Hc as (_ & -> & _). reflexivity. }
  assert (Hquery : Str.break "?" (x +:+ String "?" q) = Some (x, q)).
  { apply break_at. eapply StrFacts.all_impl; [|exact Hx].
    intros c Hc. apply path_char_spec in Hc as (-> & _). reflexivity. }
  unfold Url.urlparse, Url.urlsplit, mbind, Outcome_bind.
  destruct Hsch as [-> | ->]; simpl; rewrite Hsafe.
  all: destruct (Str.break ":" (x +:+ String "?" q)) as [[a b]|]; simpl.
  all: rewrite Hhash; simpl; rewrite Hquery; simpl; rewrite Hx4.
  all: reflexivity.
Qed.

(** The join onto a plain base URL, once the relative reference is
    parsed and its segments are resolved. *)
Lemma urljoin_on_plain_base sch n bsegs trailing rel rpath q resolved :
  sch = "http" \/ sch = "https" ->
  is_plain_netloc n = true ->
  forallb is_plain_segment bsegs = true ->
  Str.truthy rel = true ->
  Url.urlparse check_bracketed_netloc rel sch
  = Return (Url.mkParse sch "" rpath "" q "") ->
  Str.truthy rpath = true -> String.prefix "/" rpath = false ->
  (if Str.in_list
        (List.last
           (Url.filter_middle
              (("" :: bsegs ++ closing trailing) ++ Str.split "/" rpath)) "")
        ["."; ".."]
   then fold_left Url.resolve_step
          (Url.filter_middle
             (("" :: bsegs ++ closing trailing) ++ Str.split "/" rpath)) []
        ++ [""]
   else fold_left Url.resolve_step
          (Url.filter_middle
             (("" :: bsegs ++ closing trailing) ++ Str.split "/" rpath)) [])
  = "" :: resolved ->
  resolved <> [] ->
  Url.urljoin check_bracketed_netloc
    (base_url sch n bsegs trailing +:+ "/") rel
  = Return (sch +:+ "://" +:+ n +:+ "/" +:+ Str.join "/" resolved
            +:+ (if Str.truthy q then "?" +:+ q else "")).
Proof.
  intros Hsch Hn Hb Hrel Hparse Hrpath Hprefix Hres Hne'.
  assert (Hbase : base_url sch n bsegs trailing +:+ "/"
                  = sch +:+ "://" +:+ n
                    +:+ slashed (bsegs ++ closing trailing)).
  { unfold base_url. rewrite slashed_app, slashed_closing.
    now rewrite !StrFacts.app_assoc. }
  assert (Hbchars :
    forallb (Str.all is_plain_char) (bsegs ++ closing trailing) = true).
  { rewrite forallb_app, (plain_segments_chars _ Hb).
    now destruct trailing. }
  assert (Hne : bsegs ++ closing trailing <> []).
  { destruct bsegs, trailing; discriminate. }
  pose proof (split_slashed _ Hne Hbchars) as Hbsplit.
  pose proof (path_chars_slashed _ Hbchars) as Hpchars.
  destruct (bsegs ++ closing trailing) as [|s0 rest] eqn:Ebc;
    [contradiction|].
  change (slashed (s0 :: rest)) with ("/" +:+ s0 +:+ slashed rest)
    in Hbase, Hbsplit, Hpchars.
  change (Str.all is_path_char ("/" +:+ s0 +:+ slashed rest))
    with (Str.all is_path_char (s0 +:+ slashed rest)) in Hpchars.
  unfold Url.urljoin. rewrite Hbase.
  rewrite (urlparse_base _ _ _ _ Hsch Hn Hpchars).
  assert (Htb : Str.truthy (sch +:+ "://" +:+ n +:+ "/"
                            +:+ s0 +:+ slashed rest) = true).
  { destruct Hsch as [-> | ->]; reflexivity. }
  rewrite Htb, Hrel. cbn [negb].
  unfold mbind, Outcome_bind. cbn [Url.scheme]. rewrite Hparse.
  cbn [Url.scheme Url.netloc Url.path Url.params Url.query Url.fragment].
  rewrite String.eqb_refl.
  assert (Hrelv : Str.in_list sch Url.uses_relative = true).
  { destruct Hsch as [-> | ->]; reflexivity. }
  assert (Hnetv : Str.in_list sch Url.uses_netloc = true).
  { destruct Hsch as [-> | ->]; reflexivity. }
  rewrite Hrelv, Hnetv, Hrpath, Hprefix. cbn [negb orb andb Str.truthy].
  rewrite Hbsplit, <- Ebc.
  assert (Hlastb : List.last ("" :: bsegs ++ closing trailing) "" = "").
  { change ("" :: bsegs ++ closing trailing)
      with (("" :: bsegs) ++ closing trailing).
    destruct trailing; simpl closing.
    - change [""; ""] with ([""] ++ [""]). rewrite List.app_assoc.
      apply List.last_last.
    - apply List.last_last. }
  rewrite Hlastb. cbn [Str.truthy]. rewrite <- Ebc in Hres. cbv zeta.
  rewrite Hres.
  rewrite StrFacts.join_cons by exact Hne'.
  apply plain_netloc_spec in Hn as (Hn1 & _).
  unfold Url.urlunparse, Url.urlunsplit.
  cbn [Url.scheme Url.netloc Url.path Url.params Url.query Url.fragment
       Url.s_scheme Url.s_netloc Url.s_path Url.s_query Url.s_fragment
       Str.truthy].
  rewrite Hn1. cbn [orb].
  destruct Hsch as [-> | ->]; destruct (Str.truthy q); simpl;
    rewrite ?StrFacts.prefix_empty; simpl;
    rewrite ?StrFacts.app_assoc; simpl; rewrite ?StrFacts.app_nil_r;
    reflexivity.
Qed.

Lemma filter_empty_or_plain segs :
  forallb is_empty_or_plain segs = true ->
  forallb is_plain_segment (List.filter Str.truthy segs) = true.
Proof.
  induction segs as [|s l IH]; simpl; [reflexivity|].
  intros [Hs Hl]%andb_true_iff. unfold is_empty_or_plain in Hs.
  destruct (Str.truthy s) eqn:E; simpl in *; [|now apply IH].
  now rewrite Hs, IH.
Qed.

Lemma empty_or_plain_chars segs :
  forallb is_empty_or_plain segs = true ->
  forallb (Str.all is_plain_char) segs = true.
Proof.
  induction segs as [|s l IH]; simpl; [reflexivity|].
  intros [Hs Hl]%andb_true_iff. rewrite (IH Hl), andb_true_r.
  unfold is_empty_or_plain in Hs. apply orb_true_iff in Hs as [Hs | Hs].
  - destruct s; [reflexivity | discriminate].
  - now apply plain_segment_spec in Hs.
Qed.

(** The segments of the joined path when those of the reference are
    empty or plain: the empty ones go, but for the last. *)
Lemma resolve_empty_or_plain bsegs trailing segs last :
  forallb is_plain_segment bsegs = true ->
  forallb is_empty_or_plain segs = true ->
  last = "" \/ is_plain_segment last = true ->
  (if Str.in_list
        (List.last
           (Url.filter_middle
              (("" :: bsegs ++ closing trailing) ++ segs ++ [last])) "")
        ["."; ".."]
   then fold_left Url.resolve_step
          (Url.filter_middle
             (("" :: bsegs ++ closing trailing) ++ segs ++ [last])) []
        ++ [""]
   else fold_left Url.resolve_step
          (Url.filter_middle
             (("" :: bsegs ++ closing trailing) ++ segs ++ [last])) [])
  = "" :: bsegs ++ List.filter Str.truthy segs ++ [last].
Proof.
  intros Hb Hsegs Hlast.
  pose proof (last_or_plain_chars _ Hlast) as (_ & Hkept).
  rewrite (filter_middle_base _ _ _ _ Hb).
  assert (Hl : List.last ("" :: bsegs ++ List.filter Str.truthy segs
                          ++ [last]) "" = last).
  { change ("" :: bsegs ++ List.filter Str.truthy segs ++ [last])
      with (("" :: bsegs) ++ List.filter Str.truthy segs ++ [last]).
    rewrite List.app_assoc. apply List.last_last. }
  rewrite Hl.
  assert (Hdots : Str.in_list last ["."; ".."] = false).
  { unfold kept in Hkept. apply andb_true_iff in Hkept as [H1 H2].
    apply negb_true_iff in H1, H2. simpl. now rewrite H1, H2. }
  rewrite Hdots. rewrite resolve_kept; [reflexivity|].
  change ("" :: bsegs ++ List.filter Str.truthy segs ++ [last])
    with ([""] ++ bsegs ++ List.filter Str.truthy segs ++ [last]).
  rewrite !forallb_app, (plain_segments_kept _ Hb),
    (plain_segments_kept _ (filter_empty_or_plain _ Hsegs)).
  simpl. now rewrite Hkept.
Qed.

(** Lines 143 and 144 for a resource made of a path with empty or plain
    segments and, possibly, a query. *)
Lemma full_url_segments c rpath query sch n bsegs trailing segs last :
  ApiClient.url c = base_url sch n bsegs trailing ->
  sch = "http" \/ sch = "https" ->
  is_plain_netloc n = true ->
  forallb is_plain_segment bsegs = true ->
  Str.split "/" ("api/" +:+ ApiClient.version c +:+ rpath) = segs ++ [last] ->
  forallb is_empty_or_plain segs = true ->
  last = "" \/ is_plain_segment last = true ->
  match query with
  | Some q => Str.all is_query_char q = true
  | None => True
  end ->
  full_url check_bracketed_netloc c
    (rpath +:+ match query with Some q => "?" +:+ q | None => "" end)
  = Return (sch +:+ "://" +:+ n
            +:+ slashed (bsegs ++ List.filter Str.truthy segs ++ [last])
            +:+ match query with
                | Some q => if Str.truthy q then "?" +:+ q else ""
                | None => ""
                end).
Proof.
  intros Hurl Hsch Hn Hb Hsplit Hsegs Hlast Hq. unfold full_url.
  rewrite Hurl.
  pose proof (last_or_plain_chars _ Hlast) as (Hlastc & _).
  assert (Hrel : "api/" +:+ ApiClient.version c +:+ rpath
                 = Str.join "/" (segs ++ [last])).
  { rewrite <- Hsplit. symmetry. apply StrFacts.join_split. }
  assert (Hchars : Str.all is_path_char
                     ("api/" +:+ ApiClient.version c +:+ rpath) = true).
  { rewrite Hrel. apply path_chars_join.
    now rewrite forallb_snoc, Hlastc, (empty_or_plain_chars _ Hsegs). }
  pose proof (resolve_empty_or_plain bsegs trailing segs last Hb Hsegs Hlast)
    as Hres.
  rewrite <- Hsplit in Hres.
  assert (Hne : bsegs ++ List.filter Str.truthy segs ++ [last] <> []).
  { destruct bsegs, (List.filter Str.truthy segs); discriminate. }
  assert (Ht2 : Str.truthy ("api/" +:+ ApiClient.version c +:+ rpath) = true)
    by reflexivity.
  assert (Ht3 : String.prefix "/" ("api/" +:+ ApiClient.version c +:+ rpath)
                = false) by reflexivity.
  destruct query as [q|].
  - assert (Ht1 : Str.truthy ("api/" +:+ ApiClient.version c +:+ rpath
                              +:+ "?" +:+ q) = true) by reflexivity.
    change (Str.lstrip (Ascii.eqb "/")
              ("/api/" +:+ ApiClient.version c +:+ rpath +:+ "?" +:+ q))
      with ("api/" +:+ ApiClient.version c +:+ rpath +:+ "?" +:+ q).
    pose proof (urlparse_rel_query sch (ApiClient.version c +:+ rpath) q
                  Hsch Hchars Hq) as Hparse.
    rewrite StrFacts.app_assoc in Hparse.
    rewrite (urljoin_on_plain_base _ _ _ _ _ _ _ _ Hsch Hn Hb Ht1
               Hparse Ht2 Ht3 Hres Hne).
    rewrite slashed_join by exact Hne. reflexivity.
  - rewrite StrFacts.app_nil_r.
    change (Str.lstrip (Ascii.eqb "/")
              ("/api/" +:+ ApiClient.version c +:+ rpath))
      with ("api/" +:+ ApiClient.version c +:+ rpath).
    pose proof (urlparse_rel check_bracketed_netloc sch
                  (ApiClient.version c +:+ rpath) Hsch Hchars) as Hparse.
    rewrite (urljoin_on_plain_base _ _ _ _ _ _ _ _ Hsch Hn Hb Ht2
               Hparse Ht2 Ht3 Hres Hne).
    rewrite slashed_join by exact Hne. reflexivity.
Qed.

(** Lines 143 and 144 for a resource that starts with [/../]: the
    version segment is resolved away. *)
Lemma full_url_dot_dot c s sch n bsegs trailing :
  ApiClient.url c = base_url sch n bsegs trailing ->
  sch = "http" \/ sch = "https" ->
  is_plain_netloc n = true ->
  forallb is_plain_segment bsegs = true ->
  is_plain_segment (ApiClient.version c) = true ->
  is_plain_segment s = true ->
  full_url check_bracketed_netloc c ("/../" +:+ s)
  = Return (sch +:+ "://" +:+ n +:+ slashed bsegs +:+ "/api/" +:+ s).
Proof.
  intros Hurl Hsch Hn Hb HV Hs. unfold full_url. rewrite Hurl.
  set (V := ApiClient.version c) in *.
  pose proof (plain_segment_spec _ HV) as (HV1 & HV2 & HV3 & HV4).
  pose proof (plain_segment_spec _ Hs) as (Hs1 & Hs2 & Hs3 & Hs4).
  change (Str.lstrip (Ascii.eqb "/") ("/api/" +:+ V +:+ "/../" +:+ s))
    with ("api/" +:+ V +:+ "/../" +:+ s).
  assert (Hsplit : Str.split "/" ("api/" +:+ V +:+ "/../" +:+ s)
                   = ["api"; V; ".."] ++ [s]).
  { change ("api/" +:+ V +:+ "/../" +:+ s)
      with ("api" +:+ String "/" (V +:+ String "/" (".." +:+ String "/" s))).
    rewrite !split_at.
    rewrite !StrFacts.split_one by (reflexivity || now apply no_slash_plain).
    reflexivity. }
  assert (Hchars : Str.all is_path_char ("api/" +:+ V +:+ "/../" +:+ s)
                   = true).
  { change (Str.all is_path_char ("api/" +:+ V +:+ "/../" +:+ s))
      with (Str.all is_path_char (V +:+ "/../" +:+ s)).
    rewrite StrFacts.all_app.
    change (Str.all is_path_char ("/../" +:+ s))
      with (Str.all is_path_char s).
    rewrite andb_true_iff. split;
      (eapply StrFacts.all_impl; [|eassumption]);
      intros x Hx; unfold is_path_char; now rewrite Hx. }
  pose proof (urlparse_rel check_bracketed_netloc sch
                (V +:+ "/../" +:+ s) Hsch Hchars) as Hparse.
  assert (Hres :
    (if Str.in_list
          (List.last
             (Url.filter_middle
                (("" :: bsegs ++ closing trailing)
                 ++ Str.split "/" ("api/" +:+ V +:+ "/../" +:+ s))) "")
          ["."; ".."]
     then fold_left Url.resolve_step
            (Url.filter_middle
               (("" :: bsegs ++ closing trailing)
                ++ Str.split "/" ("api/" +:+ V +:+ "/../" +:+ s))) []
          ++ [""]
     else fold_left Url.resolve_step
            (Url.filter_middle
               (("" :: bsegs ++ closing trailing)
                ++ Str.split "/" ("api/" +:+ V +:+ "/../" +:+ s))) [])
    = "" :: bsegs ++ ["api"; s]).
  { rewrite Hsplit, (filter_middle_base _ _ _ _ Hb).
    cbn [List.filter Str.truthy]. rewrite HV1.
    assert (Hl : List.last ("" :: bsegs ++ ["api"; V; ".."] ++ [s]) "" = s).
    { change ("" :: bsegs ++ ["api"; V; ".."] ++ [s])
        with (("" :: bsegs) ++ ["api"; V; ".."] ++ [s]).
      rewrite List.app_assoc. apply List.last_last. }
    rewrite Hl.
    assert (Hdots : Str.in_list s ["."; ".."] = false)
      by (simpl; now rewrite Hs3, Hs4).
    rewrite Hdots.
    replace ("" :: bsegs ++ ["api"; V; ".."] ++ [s])
      with (("" :: bsegs ++ ["api"; V]) ++ [".."; s])
      by (simpl; now rewrite <- List.app_assoc).
    rewrite fold_left_app,
      (resolve_kept ("" :: bsegs ++ ["api"; V]) []).
    2:{ change ("" :: bsegs ++ ["api"; V]) with ([""] ++ bsegs ++ ["api"; V]).
        rewrite !forallb_app, (plain_segments_kept _ Hb). simpl.
        unfold kept. now rewrite HV3, HV4. }
    cbn [List.app fold_left].
    change (Url.resolve_step ("" :: bsegs ++ ["api"; V]) "..")
      with (List.removelast ("" :: bsegs ++ ["api"; V])).
    unfold Url.resolve_step. rewrite Hs4, Hs3.
    replace ("" :: bsegs ++ ["api"; V])
      with (("" :: bsegs ++ ["api"]) ++ [V])
      by (simpl; now rewrite <- List.app_assoc).
    rewrite List.removelast_last. simpl. now rewrite <- List.app_assoc. }
  assert (Hne : bsegs ++ ["api"; s] <> []) by (destruct bsegs; discriminate).
  assert (Ht2 : Str.truthy ("api/" +:+ V +:+ "/../" +:+ s) = true)
    by reflexivity.
  assert (Ht3 : String.prefix "/" ("api/" +:+ V +:+ "/../" +:+ s) = false)
    by reflexivity.
  rewrite (urljoin_on_plain_base _ _ _ _ _ _ _ _ Hsch Hn Hb Ht2
             Hparse Ht2 Ht3 Hres Hne).
  cbn [Str.truthy]. rewrite StrFacts.app_nil_r.
  rewrite <- slashed_join by exact Hne.
  rewrite slashed_app. cbn [slashed]. simpl.
  now rewrite StrFacts.app_nil_r.
Qed.

End MoreUrlFacts.

Section MoreOnUrls.

Variable check_bracketed_netloc : string -> option string.
Variable transport :
  list Sent -> Sent -> TransportResult * gmap string string.

Abbreviation call := (call check_bracketed_netloc transport).

(** X14. A query string in the resource is kept: for a plain base URL
    and a resource made of a plain path, a question mark and a query
    without [#], the URL sent is the URL of the path followed by the
    question mark and the query; an empty query is dropped together
    with its question mark. *)
Theorem query_is_kept verb self rpath q data headers w c dflt given
    sch n bsegs trailing :
  ready w self c dflt headers given ->
  ApiClient.url c = base_url sch n bsegs trailing ->
  sch = "http" \/ sch = "https" ->
  is_plain_netloc n = true ->
  forallb is_plain_segment bsegs = true ->
  is_plain_path ("api/" +:+ ApiClient.version c +:+ rpath) = true ->
  Str.all is_query_char q = true ->
  exists wire,
    sent (snd (call verb self (rpath +:+ "?" +:+ q) data headers w))
    = sent w ++ [wire]
    /\ sent_url wire
       = spec_full_url (ApiClient.url c) (ApiClient.version c) rpath
         +:+ (if Str.truthy q then "?" +:+ q else "").
Proof.
  intros Hready Hbase Hsch Hn Hb Hp Hq.
  destruct (plain_path_spec _ Hp) as (init & last & Hsplit & Hinit & Hlast).
  assert (Hinit' : forallb is_empty_or_plain init = true).
  { clear -Hinit. induction init as [|s l IH]; [reflexivity|]. simpl in *.
    apply andb_true_iff in Hinit as [Hs Hl]. unfold is_empty_or_plain at 1.
    now rewrite Hs, orb_true_r, IH. }
  pose proof (full_url_segments check_bracketed_netloc c rpath (Some q)
                sch n bsegs trailing init last Hbase Hsch Hn Hb Hsplit
                Hinit' Hlast Hq) as Hurl.
  cbv beta iota in Hurl.
  rewrite (call_world _ _ _ _ _ _ _ _ _ _ _ _ Hready Hurl).
  eexists. split; [reflexivity|]. cbn [sent_url].
  unfold spec_full_url.
  rewrite Hbase, (drop_trailing_slash_base _ _ _ _ Hn Hb).
  rewrite (filter_plain_segments _ Hinit), slashed_app.
  rewrite (slashed_join (init ++ [last])) by (destruct init; discriminate).
  rewrite <- Hsplit, StrFacts.join_split.
  now rewrite !StrFacts.app_assoc.
Qed.

(** X15. Empty segments of the resource (doubled slashes) are dropped
    by the join: for a plain base URL and a path whose segments are
    empty or plain, the URL sent is the base URL followed by the
    non-empty segments, each after one slash; the last segment is kept
    even when empty (a trailing slash). *)
Theorem empty_segments_are_dropped verb self resource data headers w c dflt
    given sch n bsegs trailing segs last :
  ready w self c dflt headers given ->
  ApiClient.url c = base_url sch n bsegs trailing ->
  sch = "http" \/ sch = "https" ->
  is_plain_netloc n = true ->
  forallb is_plain_segment bsegs = true ->
  Str.split "/" ("api/" +:+ ApiClient.version c +:+ resource)
  = segs ++ [last] ->
  forallb is_empty_or_plain segs = true ->
  last = "" \/ is_plain_segment last = true ->
  exists wire,
    sent (snd (call verb self resource data headers w)) = sent w ++ [wire]
    /\ sent_url wire
       = sch +:+ "://" +:+ n
         +:+ slashed (bsegs ++ List.filter Str.truthy segs ++ [last]).
Proof.
  intros Hready Hbase Hsch Hn Hb Hsplit Hsegs Hlast.
  pose proof (full_url_segments check_bracketed_netloc c resource None
                sch n bsegs trailing segs last Hbase Hsch Hn Hb Hsplit
                Hsegs Hlast I) as Hurl.
  cbv beta iota in Hurl. rewrite !StrFacts.app_nil_r in Hurl.
  rewrite (call_world _ _ _ _ _ _ _ _ _ _ _ _ Hready Hurl).
  eexists. split; reflexivity.
Qed.

(** X17. The version is not a boundary: for a plain base URL and a
    plain version, the resource [/../] followed by a plain segment is
    sent to the URL of that segment directly under [/api/], the
    version resolved away. *)
Theorem dot_dot_leaves_the_version verb self s data headers w c dflt given
    sch n bsegs trailing :
  ready w self c dflt headers given ->
  ApiClient.url c = base_url sch n bsegs trailing ->
  sch = "http" \/ sch = "https" ->
  is_plain_netloc n = true ->
  forallb is_plain_segment bsegs = true ->
  is_plain_segment (ApiClient.version c) = true ->
  is_plain_segment s = true ->
  exists wire,
    sent (snd (call verb self ("/../" +:+ s) data headers w))
    = sent w ++ [wire]
    /\ sent_url wire
       = sch +:+ "://" +:+ n +:+ slashed bsegs +:+ "/api/" +:+ s.
Proof.
  intros Hready Hbase Hsch Hn Hb HV Hs.
  pose proof (full_url_dot_dot check_bracketed_netloc c s sch n bsegs
                trailing Hbase Hsch Hn Hb HV Hs) as Hurl.
  rewrite (call_world _ _ _ _ _ _ _ _ _ _ _ _ Hready Hurl).
  eexists. split; reflexivity.
Qed.

End MoreOnUrls.

(** ** Worked examples for the further properties *)

Lemma world4_ready :
  ready world4 2%positive client4 (default_headers "key") None ∅.
Proof. repeat split; vm_compute; reflexivity. Qed.

Lemma authorization_header_witness :
  exists c d,
    heap world4 !! 2%positive = Some (ObjApiClient c)
    /\ ApiClient.token c = Str.py_strip " key "
    /\ heap world4 !! ApiClient.headers c = Some (ObjDict d)
    /\ d !! "Authorization" = Some ("Token " +:+ Str.py_strip " key ").
Proof.
  apply (authorization_header " key " (Some " https://api.example/bhe/ ")
           (Some "v2") false world3 2%positive world4).
  - reflexivity.
  - vm_compute. reflexivity.
Defined.

Lemma environment_token_header_witness :
  exists c d,
    heap (snd (ApiClient__init__ (Some "") None None true world3))
      !! 2%positive = Some (ObjApiClient c)
    /\ ApiClient.token c = Str.py_strip " from-env "
    /\ heap (snd (ApiClient__init__ (Some "") None None true world3))
         !! ApiClient.headers c = Some (ObjDict d)
    /\ d !! "Authorization" = Some ("Token " +:+ Str.py_strip " from-env ").
Proof.
  apply (environment_token_header (Some "") " from-env " None None true
           world3 2%positive).
  - reflexivity.
  - vm_compute. reflexivity.
  - vm_compute. reflexivity.
Defined.

Lemma url_resolution_witness :
  exists c,
    heap (snd (ApiClient__init__ None (Some "") None true world3))
      !! 2%positive = Some (ObjApiClient c)
    /\ ApiClient.url c = Str.py_strip "https://env.example/".
Proof.
  destruct (url_resolution None (Some "") None true world3 2%positive
              (snd (ApiClient__init__ None (Some "") None true world3)))
    as (c & Hself & _ & Henv & _).
  - vm_compute. reflexivity.
  - exists c. split; [exact Hself|]. apply Henv; reflexivity.
Defined.

Lemma version_resolution_witness :
  exists c,
    heap world4 !! 2%positive = Some (ObjApiClient c)
    /\ ApiClient.version c = "v2".
Proof.
  destruct (version_resolution (Some " key ")
              (Some " https://api.example/bhe/ ") (Some "v2") false world3
              2%positive world4) as (c & Hself & Hgiven & _).
  - vm_compute. reflexivity.
  - exists c. split; [exact Hself|]. apply Hgiven; reflexivity.
Defined.

Lemma stored_configuration_is_stripped_witness :
  exists c,
    heap world4 !! 2%positive = Some (ObjApiClient c)
    /\ Str.py_strip (ApiClient.token c) = ApiClient.token c
    /\ Str.py_strip (ApiClient.url c) = ApiClient.url c.
Proof.
  destruct (stored_configuration_is_stripped (Some " key ")
              (Some " https://api.example/bhe/ ") (Some "v2") false world3
              2%positive world4) as (c & Hself & Ht & Hu & _).
  - vm_compute. reflexivity.
  - exists c. repeat split; assumption.
Defined.

Lemma verb_methods_witness :
  exists wire,
    sent (snd (delete accept_brackets (answering r204) 2%positive "/dte/7"
                 None world1)) = sent world1 ++ [wire]
    /\ sent_method wire = "DELETE"
    /\ sent_url wire = "https://bhexpress.cl/api/v1/dte/7"
    /\ sent_data wire = PNone.
Proof.
  apply (verb_methods accept_brackets (answering r204) 2%positive "/dte/7"
           (PStr "ignored") None world1 client1 (default_headers "secret") ∅
           "https://bhexpress.cl/api/v1/dte/7").
  - repeat split; vm_compute; reflexivity.
  - vm_compute. reflexivity.
Defined.

Lemma caller_headers_untouched_witness :
  heap (snd (call accept_brackets (failing ConnectionError "down") POST
               2%positive "/dte" (PStr "{}") (Some 3%positive) world2))
    !! 3%positive = Some (ObjDict caller_headers).
Proof.
  refine (proj1 (caller_headers_untouched accept_brackets
                   (failing ConnectionError "down") POST 2%positive "/dte"
                   (PStr "{}") 3%positive world2 client1
                   (default_headers "secret") caller_headers
                   "https://bhexpress.cl/api/v1/dte" _ _)).
  - repeat split; vm_compute; reflexivity.
  - vm_compute. reflexivity.
Defined.

Lemma default_headers_sent_witness :
  exists wire,
    sent (snd (call accept_brackets (answering r201) GET 2%positive "/dte"
                 PNone None world4)) = sent world4 ++ [wire]
    /\ sent_headers wire !! "Authorization" = Some ("Token " +:+ "key")
    /\ sent_headers wire !! "X-Trace" = None.
Proof.
  destruct (default_headers_sent accept_brackets (answering r201) GET
              2%positive "/dte" PNone None world4 client4
              "https://api.example/bhe/api/v2/dte")
    as (wire & Hsent & _ & _ & _ & Hauth & Hnone).
  - repeat split; vm_compute; reflexivity.
  - vm_compute. reflexivity.
  - exists wire. split; [exact Hsent|]. split; [exact Hauth|].
    apply Hnone; discriminate.
Defined.

Lemma body_is_text_or_falsy_witness :
  exists wire,
    sent (snd (post accept_brackets (answering r201) 2%positive "/dte"
                 (PList [PInt 1; PNone]) None world1)) = sent world1 ++ [wire]
    /\ (Py.is_str (sent_data wire) = true
        \/ Py.truthy (sent_data wire) = false).
Proof.
  destruct (body_is_text_or_falsy accept_brackets (answering r201) 2%positive
              "/dte" (PList [PInt 1; PNone]) None world1 client1
              (default_headers "secret") ∅ "https://bhexpress.cl/api/v1/dte")
    as (wire & Hsent & Htext & _).
  - repeat split; vm_compute; reflexivity.
  - vm_compute. reflexivity.
  - exists wire. split; assumption.
Defined.

Lemma query_is_kept_witness :
  exists wire,
    sent (snd (call accept_brackets (answering r201) GET 2%positive
                 ("/dte" +:+ "?" +:+ "limit=10&page=2") PNone None world4))
    = sent world4 ++ [wire]
    /\ sent_url wire
       = spec_full_url "https://api.example/bhe/" "v2" "/dte"
         +:+ "?" +:+ "limit=10&page=2".
Proof.
  apply (query_is_kept accept_brackets (answering r201) GET 2%positive "/dte"
           "limit=10&page=2" PNone None world4 client4 (default_headers "key")
           ∅ "https" "api.example" ["bhe"] true).
  - repeat split; vm_compute; reflexivity.
  - reflexivity.
  - right. reflexivity.
  - reflexivity.
  - reflexivity.
  - reflexivity.
  - reflexivity.
Defined.

Lemma empty_segments_are_dropped_witness :
  exists wire,
    sent (snd (call accept_brackets (answering r201) GET 2%positive
                 "//dte//33/" PNone None world1)) = sent world1 ++ [wire]
    /\ sent_url wire
       = "https" +:+ "://" +:+ "bhexpress.cl"
         +:+ slashed ([] ++ ["api"; "v1"; "dte"; "33"] ++ [""]).
Proof.
  apply (empty_segments_are_dropped accept_brackets (answering r201) GET
           2%positive "//dte//33/" PNone None world1 client1
           (default_headers "secret") ∅ "https" "bhexpress.cl" [] false
           ["api"; "v1"; ""; "dte"; ""; "33"] "").
  - repeat split; vm_compute; reflexivity.
  - reflexivity.
  - right. reflexivity.
  - reflexivity.
  - reflexivity.
  - reflexivity.
  - reflexivity.
  - left. reflexivity.
Defined.

Lemma dot_dot_leaves_the_version_witness :
  exists wire,
    sent (snd (call accept_brackets (answering r201) GET 2%positive
                 ("/../" +:+ "admin") PNone None world4))
    = sent world4 ++ [wire]
    /\ sent_url wire
       = "https" +:+ "://" +:+ "api.example" +:+ slashed ["bhe"]
         +:+ "/api/" +:+ "admin".
Proof.
  apply (dot_dot_leaves_the_version accept_brackets (answering r201) GET
           2%positive "admin" PNone None world4 client4
           (default_headers "key") ∅ "https" "api.example" ["bhe"] true).
  - repeat split; vm_compute; reflexivity.
  - reflexivity.
  - right. reflexivity.
  - reflexivity.
  - reflexivity.
  - reflexivity.
  - reflexivity.
Defined.

(** ** Sequences of calls *)

Section Sequences.

Variable check_bracketed_netloc : string -> option string.
Variable transport :
  list Sent -> Sent -> TransportResult * gmap string string.

Abbreviation run := (run check_bracketed_netloc transport).

(** X18. Verb calls made one after the other only add to the calls the
    Transport has received, in order, and add at most one call each:
    what was sent before stays a prefix, followed by no more calls than
    verbs were called. *)
Theorem run_sends_at_most_one_each self calls w :
  exists added,
    sent (run self calls w) = sent w ++ added
    /\ length added <= length calls.
Proof.
  revert w. induction calls as [|[[[verb resource] data] headers] rest IH];
    intros w.
  - exists []. split; [now rewrite List.app_nil_r | reflexivity].
  - simpl.
    set (w1 := snd (call check_bracketed_netloc transport verb self resource
                      data headers w)).
    destruct (IH w1) as (added & Hsent & Hlen).
    assert (Hstep : sent w1 = sent w \/ exists wire, sent w1 = sent w ++ [wire]).
    { subst w1. rewrite call_request.
      destruct (request_world_cases check_bracketed_netloc transport self
                  (verb_method verb) resource (verb_data verb data) headers w)
        as [-> | (d & wire & ->)]; [now left | right; eauto]. }
    destruct Hstep as [Hstep | [wire Hstep]]; rewrite Hstep in Hsent.
    + exists added. split; [exact Hsent | lia].
    + exists (wire :: added). split; [|simpl; lia].
      rewrite Hsent, <- List.app_assoc. reflexivity.
Qed.

End Sequences.

Lemma run_sends_at_most_one_each_example :
  sent_url <$> sent (run accept_brackets (answering r201) 2%positive
                       [(GET, "/dte", PNone, None);
                        (GET, "/dte", PNone, Some 9%positive);
                        (POST, "/dte/1", PInt 0, None)] world1)
  = ["https://bhexpress.cl/api/v1/dte"; "https://bhexpress.cl/api/v1/dte/1"].
Proof. vm_compute. reflexivity. Qed.
